(** * Azure document uploader: request handlers and validators

    A shallow embedding of

    - [client/src/components/ContainerManager.tsx] ([validateContainerName]),
    - [server/index.js] (the multer configuration, the storage adapter
      [getBlobServiceClient] / [getContainerClient], the six route handlers
      and the error handling middleware).

    JavaScript strings are embedded as [string]; every character stands for
    one UTF-16 code unit in the range 0..255 (all literals of the program are
    plain ASCII).  The blob-storage SDK is an interface ([BlobService]): the
    handlers are written once against it and run against any implementation;
    [Mem.MemService] is an in-memory implementation that follows the documented
    behaviour of the service for the calls the server makes.

    The model starts where a request reaches its route: the helmet, CORS and
    rate-limiting middlewares are configuration and are not modelled. *)

From Stdlib Require Import NArith Ascii String.
From stdpp Require Import base strings list gmap fin_maps.

Local Open Scope string_scope.
Local Set Warnings "-register-all".

(** ** JavaScript string primitives *)

Module JsString.

(** [!s] on a string: only the empty string is falsy. *)
Definition falsy (s : string) : bool :=
  match s with
  | EmptyString => true
  | String _ _ => false
  end.

(** [s.length] *)
Definition length (s : string) : N := N.of_nat (String.length s).

(** [s.startsWith(p)] *)
Fixpoint startsWith (s p : string) {struct p} : bool :=
  match p with
  | EmptyString => true
  | String b p' =>
      match s with
      | EmptyString => false
      | String a s' => Ascii.eqb a b && startsWith s' p'
      end
  end.

(** [s.endsWith(p)]: some suffix of [s] is [p]. *)
Fixpoint endsWith (s p : string) : bool :=
  String.eqb s p ||
  match s with
  | EmptyString => false
  | String _ s' => endsWith s' p
  end.

(** [s.includes(p)]: [p] starts at some position of [s]. *)
Fixpoint includes (s p : string) : bool :=
  startsWith s p ||
  match s with
  | EmptyString => false
  | String _ s' => includes s' p
  end.

(** Every code unit of [s] satisfies [f]. *)
Fixpoint all (f : ascii -> bool) (s : string) : bool :=
  match s with
  | EmptyString => true
  | String a s' => f a && all f s'
  end.

(** [n.toString()] for a non-negative integer [n]. *)
Definition digit (d : N) : ascii := ascii_of_N (48 + d).

Fixpoint toString_fuel (fuel : nat) (n : N) (acc : string) : string :=
  match fuel with
  | O => acc
  | S fuel' =>
      let acc' := String (digit (n mod 10)) acc in
      if (n / 10 =? 0)%N then acc' else toString_fuel fuel' (n / 10)%N acc'
  end.

Definition toString (n : N) : string :=
  toString_fuel (S (N.to_nat (N.log2 n))) n "".

End JsString.

(** ** Container name validator (client) *)

(** The character class [[a-z0-9-]]. *)
Definition name_char (c : ascii) : bool :=
  let n := N_of_ascii c in
  ((97 <=? n) && (n <=? 122) || (48 <=? n) && (n <=? 57) || (n =? 45))%N.

(** [/^[a-z0-9-]+$/.test(s)]: one or more characters, each in the class,
    from the start of the input to its end. *)
Definition re_name_test (s : string) : bool :=
  negb (JsString.falsy s) && JsString.all name_char s.

Definition msg_required : string := "Container name is required".
Definition msg_length : string :=
  "Container name must be between 3 and 63 characters".
Definition msg_charset : string :=
  "Container name must contain only lowercase letters, numbers, and hyphens".
Definition msg_edge_hyphen : string :=
  "Container name cannot start or end with a hyphen".
Definition msg_double_hyphen : string :=
  "Container name cannot contain consecutive hyphens".

Definition validateContainerName (name : string) : string :=
  if JsString.falsy name then msg_required
  else if ((JsString.length name <? 3) || (63 <? JsString.length name))%N
  then msg_length
  else if negb (re_name_test name) then msg_charset
  else if JsString.startsWith name "-" || JsString.endsWith name "-"
  then msg_edge_hyphen
  else if JsString.includes name "--" then msg_double_hyphen
  else "".

(** *** The naming rules, as the specification words them *)

Module NameRules.

Definition chars (s : string) : list ascii := list_ascii_of_string s.

Definition code (c : ascii) : N := N_of_ascii c.

Definition in_class (c : ascii) : Prop :=
  (code "a" <= code c /\ code c <= code "z")%N \/
  (code "0" <= code c /\ code c <= code "9")%N \/
  c = "-"%char.

Definition is_empty (s : string) : Prop := s = "".

Definition bad_length (s : string) : Prop :=
  String.length s < 3 \/ 63 < String.length s.

Definition bad_charset (s : string) : Prop :=
  exists c, c ∈ chars s /\ ~ in_class c.

Definition edge_hyphen (s : string) : Prop :=
  (exists t, s = "-" +:+ t) \/ (exists t, s = t +:+ "-").

Definition double_hyphen (s : string) : Prop :=
  exists u v, s = u +:+ "--" +:+ v.

(** [^[a-z0-9-]{3,63}$] *)
Definition matches_3_63 (s : string) : Prop :=
  3 <= String.length s <= 63 /\ Forall in_class (chars s).

Definition well_formed (s : string) : Prop :=
  matches_3_63 s /\ ~ edge_hyphen s /\ ~ double_hyphen s.

(** The five rules, in the order they are checked. *)
Inductive rule : Type :=
| Required | Length | Charset | EdgeHyphen | DoubleHyphen.

Definition position (r : rule) : nat :=
  match r with
  | Required => 0 | Length => 1 | Charset => 2
  | EdgeHyphen => 3 | DoubleHyphen => 4
  end.

Definition violates (r : rule) (s : string) : Prop :=
  match r with
  | Required => is_empty s
  | Length => bad_length s
  | Charset => bad_charset s
  | EdgeHyphen => edge_hyphen s
  | DoubleHyphen => double_hyphen s
  end.

Definition reason (r : rule) : string :=
  match r with
  | Required => msg_required
  | Length => msg_length
  | Charset => msg_charset
  | EdgeHyphen => msg_edge_hyphen
  | DoubleHyphen => msg_double_hyphen
  end.

End NameRules.

(** ** Values exchanged with the outside *)

(** What [res.json] serialises. *)
Inductive Json : Type :=
| JStr (s : string)
| JNum (n : N)
| JArr (items : list Json)
| JObj (fields : list (string * Json)).

(** [res.status(code).json(body)]; [res.json(body)] leaves the status at 200. *)
Record Response : Type := mkResponse {
  status : N;
  body : Json
}.

Definition json_field (k : string) (j : Json) : option Json :=
  match j with
  | JObj fields => snd <$> List.find (fun kv => String.eqb (fst kv) k) fields
  | _ => None
  end.

(** [Object.keys] of a serialised object, in order. *)
Definition json_keys (j : Json) : list string :=
  match j with
  | JObj fields => fst <$> fields
  | _ => []
  end.

Definition res_json (b : Json) : Response := mkResponse 200 b.
Definition res_status_json (code : N) (b : Json) : Response := mkResponse code b.
Definition error_body (msg : string) : Json := JObj [("error", JStr msg)].

(** Thrown values: [new Error(message)], [multer.MulterError] with its
    [code], and the SDK's error, whose [statusCode] is the HTTP status of the
    service's answer and is undefined when no answer arrived. *)
Inductive JsError : Type :=
| Error (message : string)
| MulterError (code : string)
| RestError (statusCode : option N) (message : string).

(** [error.statusCode] *)
Definition statusCode_of (e : JsError) : option N :=
  match e with
  | RestError sc _ => sc
  | _ => None
  end.

Inductive Outcome (A : Type) : Type :=
| Ok (a : A)
| Throw (e : JsError).
Arguments Ok {A} a.
Arguments Throw {A} e.

(** A Node [Buffer]: a fixed number of bytes, read by index. *)
Record Buffer : Type := mkBuffer {
  byteLength : N;
  byteAt : N -> Byte.byte
}.

(** ** The blob-storage SDK, as the server uses it *)

Record ContainerItem : Type := mkContainerItem {
  container_name : string;
  container_lastModified : string
}.

Record BlobItem : Type := mkBlobItem {
  blob_name : string;
  blob_metadata : option (gmap string string);
  blob_lastModified : string;
  blob_contentLength : N;
  blob_contentType : string
}.

(** One entry per request sent to the service. *)
Inductive SdkCall : Type :=
| CallListContainers
| CallCreate (container access : string)
| CallCreateIfNotExists (container access : string)
| CallUploadData (container blob : string) (data : Buffer)
    (blobContentType : string) (metadata : list (string * string))
| CallListBlobsFlat (container : string) (includeMetadata : bool)
| CallDelete (container blob : string).

Class BlobService (S : Type) : Type := {
  (** [BlobServiceClient.fromConnectionString]: parses, sends nothing. *)
  fromConnectionString : string -> Outcome unit;
  (** [containerClient.url] and [blobClient.url] *)
  containerUrl : string -> string;
  blobUrl : string -> string -> string;
  listContainers : S -> Outcome (list ContainerItem) * S;
  create : string -> string -> S -> Outcome unit * S;
  createIfNotExists : string -> string -> S -> Outcome unit * S;
  uploadData : string -> string -> Buffer -> string ->
               list (string * string) -> S -> Outcome unit * S;
  listBlobsFlat : string -> bool -> S -> Outcome (list BlobItem) * S;
  delete_blob : string -> string -> S -> Outcome unit * S
}.

(** ** The process and its surroundings *)

Record World (S : Type) : Type := mkWorld {
  (** [process.env.AZURE_STORAGE_CONNECTION_STRING] *)
  env_connectionString : option string;
  (** the storage service *)
  service : S;
  (** requests sent to the service so far, oldest first *)
  calls : list SdkCall;
  (** the values [uuidv4()] returns, and how many were drawn *)
  uuid_source : N -> string;
  uuid_drawn : N;
  (** [new Date().toISOString()] *)
  now : string
}.
Arguments mkWorld {S}.
Arguments env_connectionString {S}.
Arguments service {S}.
Arguments calls {S}.
Arguments uuid_source {S}.
Arguments uuid_drawn {S}.
Arguments now {S}.

(** ** multer *)

(** The part of a multipart request sent in field [file], as it arrives. *)
Record FilePart : Type := mkFilePart {
  part_originalname : string;
  part_mimetype : string;
  part_data : Buffer
}.

(** [req.file] under memory storage. *)
Record MulterFile : Type := mkMulterFile {
  originalname : string;
  buffer : Buffer;
  mimetype : string;
  size : N
}.

(** The arguments [fileFilter] hands to its callback: [cb(error, accept)]. *)
Record FilterCallback : Type := cb {
  cb_error : option JsError;
  cb_accept : bool
}.

Record MulterOptions : Type := mkMulterOptions {
  limits_fileSize : N;
  fileFilter : FilePart -> FilterCallback
}.

(** What the middleware passes on: [next()] with [req.file] set or left
    undefined, or [next(error)]. *)
Inductive Next : Type :=
| NextHandler (file : option MulterFile)
| NextError (e : JsError).

(** [multer(options).single('file')]: no part, no [req.file]; otherwise the
    filter runs first, and an accepted file is read into memory unless it is
    longer than [limits.fileSize].

    The requests represented carry at most one file part, sent in field
    [file]: a file part in another field, or a second one, is stopped by
    multer with [LIMIT_UNEXPECTED_FILE] and is not represented.
    [part_mimetype] is the type as multer reports it in [file.mimetype].  A
    file of exactly [limits.fileSize] bytes is let through here, as by multer
    on busboy 0.x; on busboy 1.x multer stops such a file as well. *)
Definition multer_single (options : MulterOptions) (part : option FilePart)
  : Next :=
  match part with
  | None => NextHandler None
  | Some p =>
      match fileFilter options p with
      | cb (Some e) _ => NextError e
      | cb None false => NextHandler None
      | cb None true =>
          if (limits_fileSize options <? byteLength (part_data p))%N
          then NextError (MulterError "LIMIT_FILE_SIZE")
          else NextHandler
                 (Some (mkMulterFile (part_originalname p) (part_data p)
                          (part_mimetype p) (byteLength (part_data p))))
      end
  end.

Definition allowedTypes : list string :=
  [ "application/pdf";
    "application/msword";
    "application/vnd.openxmlformats-officedocument.wordprocessingml.document";
    "application/vnd.ms-excel";
    "application/vnd.openxmlformats-officedocument.spreadsheetml.sheet";
    "application/vnd.ms-powerpoint";
    "application/vnd.openxmlformats-officedocument.presentationml.presentation";
    "text/plain";
    "image/jpeg";
    "image/png";
    "image/gif" ].

(** [array.includes(x)] on strings *)
Definition array_includes (l : list string) (x : string) : bool :=
  existsb (String.eqb x) l.

Definition upload : MulterOptions :=
  mkMulterOptions
    (100 * 1024 * 1024)
    (fun file =>
       if array_includes allowedTypes (part_mimetype file)
       then cb None true
       else cb (Some (Error "File type not supported")) false).

(** Error handling middleware *)
Definition error_middleware (error : JsError) : Response :=
  match error with
  | MulterError code =>
      if String.eqb code "LIMIT_FILE_SIZE"
      then res_status_json 400
             (error_body "File too large. Maximum size is 100MB.")
      else res_status_json 500 (error_body "Internal server error")
  | _ => res_status_json 500 (error_body "Internal server error")
  end.

(** [a || b] on an optional string: [b] when [a] is undefined or empty. *)
Definition or_else (a : option string) (b : string) : string :=
  match a with
  | Some s => if JsString.falsy s then b else s
  | None => b
  end.

(** [blob.metadata?.originalName] *)
Definition metadata_originalName (blob : BlobItem) : option string :=
  match blob_metadata blob with
  | Some metadata => metadata !! "originalName"
  | None => None
  end.

(** ** Handlers: state and exceptions *)

Section Server.

Context {S : Type} `{svc : BlobService S}.

Definition M (A : Type) : Type := World S -> Outcome A * World S.

Definition ret {A} (a : A) : M A := fun w => (Ok a, w).

Definition throw {A} (e : JsError) : M A := fun w => (Throw e, w).

Definition bind {A B} (m : M A) (k : A -> M B) : M B :=
  fun w =>
    match m w with
    | (Ok a, w') => k a w'
    | (Throw e, w') => (Throw e, w')
    end.

(** [try { m } catch (error) { h error }] *)
Definition try_catch {A} (m : M A) (h : JsError -> M A) : M A :=
  fun w =>
    match m w with
    | (Ok a, w') => (Ok a, w')
    | (Throw e, w') => h e w'
    end.

Notation "'do' x <- m ; k" := (bind m (fun x => k))
  (at level 10, x name, m at level 100, k at level 200).
Notation "'await' m ; k" := (bind m (fun _ => k))
  (at level 10, m at level 100, k at level 200).

(** The world after the service answered call [c] and moved to [s']. *)
Definition answered (w : World S) (c : SdkCall) (s' : S) : World S :=
  mkWorld (env_connectionString w) s' (calls w ++ [c])
          (uuid_source w) (uuid_drawn w) (now w).

(** The world after one more identifier was drawn. *)
Definition drawn (w : World S) : World S :=
  mkWorld (env_connectionString w) (service w) (calls w)
          (uuid_source w) (N.succ (uuid_drawn w)) (now w).

(** A request to the service: logged, then answered by the service. *)
Definition sdk {A} (c : SdkCall) (op : S -> Outcome A * S) : M A :=
  fun w => let (r, s') := op (service w) in (r, answered w c s').

Definition uuidv4 : M string :=
  fun w => (Ok (uuid_source w (uuid_drawn w)), drawn w).

Definition new_Date_toISOString : M string := fun w => (Ok (now w), w).

(** *** Storage adapter *)

Definition getBlobServiceClient : M unit :=
  fun w =>
    match env_connectionString w with
    | None => (Throw (Error "Azure Storage connection string not found"), w)
    | Some connectionString =>
        if JsString.falsy connectionString
        then (Throw (Error "Azure Storage connection string not found"), w)
        else (fromConnectionString connectionString, w)
    end.

(** The process has a connection string the SDK can parse. *)
Definition configured (w : World S) : Prop :=
  exists connectionString,
    env_connectionString w = Some connectionString /\
    connectionString <> "" /\
    fromConnectionString connectionString = Ok tt.

(** Get or create container; the returned client is the container name. *)
Definition getContainerClient (containerName : string) : M string :=
  await getBlobServiceClient;
  await sdk (CallCreateIfNotExists containerName "blob")
            (createIfNotExists containerName "blob");
  ret containerName.

(** *** Routes *)

Definition container_json (c : ContainerItem) : Json :=
  JObj [("name", JStr (container_name c));
        ("lastModified", JStr (container_lastModified c))].

(** [GET /api/containers] *)
Definition get_containers : M Response :=
  try_catch
    (await getBlobServiceClient;
     do containers <- sdk CallListContainers listContainers;
     ret (res_json (JArr (container_json <$> containers))))
    (fun error =>
       ret (res_status_json 500 (error_body "Failed to fetch containers"))).

(** [POST /api/containers]; [name] is [req.body.name], [None] when the
    body has no such field. *)
Definition post_containers (name : option string) : M Response :=
  try_catch
    (match name with
     | None => ret (res_status_json 400 (error_body msg_charset))
     | Some name =>
         if JsString.falsy name || negb (re_name_test name)
         then ret (res_status_json 400 (error_body msg_charset))
         else
           await getBlobServiceClient;
           await sdk (CallCreate name "blob") (create name "blob");
           ret (res_json (JObj [("message", JStr "Container created successfully");
                                ("name", JStr name)]))
     end)
    (fun error =>
       if decide (statusCode_of error = Some 409%N)
       then ret (res_status_json 409 (error_body "Container already exists"))
       else ret (res_status_json 500 (error_body "Failed to create container"))).

(** [POST /api/upload/:containerName], after [upload.single('file')].
    The unused [fileExtension] of the source is a pure computation on
    [originalname] and is left out. *)
Definition upload_handler (containerName : string)
    (file : option MulterFile) : M Response :=
  try_catch
    (match file with
     | None => ret (res_status_json 400 (error_body "No file uploaded"))
     | Some f =>
         do uuid <- uuidv4;
         let uniqueFilename := uuid +:+ "-" +:+ originalname f in
         do containerClient <- getContainerClient containerName;
         do uploadDate <- new_Date_toISOString;
         await sdk (CallUploadData containerClient uniqueFilename (buffer f)
                      (mimetype f)
                      [("originalName", originalname f);
                       ("uploadDate", uploadDate);
                       ("fileSize", JsString.toString (size f))])
                   (uploadData containerClient uniqueFilename (buffer f)
                      (mimetype f)
                      [("originalName", originalname f);
                       ("uploadDate", uploadDate);
                       ("fileSize", JsString.toString (size f))]);
         ret (res_json
                (JObj [("message", JStr "File uploaded successfully");
                       ("filename", JStr uniqueFilename);
                       ("originalName", JStr (originalname f));
                       ("url", JStr (blobUrl containerClient uniqueFilename));
                       ("size", JNum (size f));
                       ("container", JStr containerName)]))
     end)
    (fun error =>
       ret (res_status_json 500 (error_body "Failed to upload file"))).

(** The route: multer first; an error it raises goes to the error
    handling middleware and the handler never runs. *)
Definition post_upload (containerName : string) (part : option FilePart)
  : M Response :=
  match multer_single upload part with
  | NextHandler file => upload_handler containerName file
  | NextError e => ret (error_middleware e)
  end.

Definition file_json (containerClient : string) (blob : BlobItem) : Json :=
  JObj [("name", JStr (blob_name blob));
        ("originalName",
           JStr (or_else (metadata_originalName blob) (blob_name blob)));
        ("lastModified", JStr (blob_lastModified blob));
        ("size", JNum (blob_contentLength blob));
        ("contentType", JStr (blob_contentType blob));
        ("url", JStr (containerUrl containerClient +:+ "/" +:+ blob_name blob))].

(** [GET /api/containers/:containerName/files] *)
Definition get_files (containerName : string) : M Response :=
  try_catch
    (do containerClient <- getContainerClient containerName;
     do blobs <- sdk (CallListBlobsFlat containerClient true)
                     (listBlobsFlat containerClient true);
     ret (res_json (JArr (file_json containerClient <$> blobs))))
    (fun error =>
       ret (res_status_json 500 (error_body "Failed to fetch files"))).

(** [DELETE /api/containers/:containerName/files/:filename] *)
Definition delete_file (containerName filename : string) : M Response :=
  try_catch
    (do containerClient <- getContainerClient containerName;
     await sdk (CallDelete containerClient filename)
               (delete_blob containerClient filename);
     ret (res_json (JObj [("message", JStr "File deleted successfully")])))
    (fun error =>
       ret (res_status_json 500 (error_body "Failed to delete file"))).

(** [GET /api/health] *)
Definition get_health : M Response :=
  do timestamp <- new_Date_toISOString;
  ret (res_json (JObj [("status", JStr "OK"); ("timestamp", JStr timestamp)])).

End Server.

Arguments M S A : clear implicits.

(** What an entry of the file listing holds for the blob it stands for. *)
Definition entry_for {S : Type} `{svc : BlobService S}
    (containerName : string) (blob : BlobItem) (entry : Json) : Prop :=
  json_keys entry
  = ["name"; "originalName"; "lastModified"; "size"; "contentType"; "url"]
  /\ json_field "name" entry = Some (JStr (blob_name blob))
  /\ (forall tag,
         metadata_originalName blob = Some tag -> tag <> "" ->
         json_field "originalName" entry = Some (JStr tag))
  /\ (metadata_originalName blob = None \/
      metadata_originalName blob = Some "" ->
      json_field "originalName" entry = Some (JStr (blob_name blob)))
  /\ json_field "lastModified" entry = Some (JStr (blob_lastModified blob))
  /\ json_field "size" entry = Some (JNum (blob_contentLength blob))
  /\ json_field "contentType" entry = Some (JStr (blob_contentType blob))
  /\ json_field "url" entry
     = Some (JStr (containerUrl containerName +:+ "/" +:+ blob_name blob)).

(** ** Reading a decimal numeral *)

Definition is_digit (c : ascii) : bool :=
  ((48 <=? N_of_ascii c) && (N_of_ascii c <=? 57))%N.

(** The number a string of decimal digits denotes, most significant digit
    first, continuing from [v]. *)
Fixpoint decimal_from (v : N) (s : string) : N :=
  match s with
  | EmptyString => v
  | String c s' => decimal_from (10 * v + (N_of_ascii c - 48)) s'
  end.

Definition decimal_value (s : string) : N := decimal_from 0 s.

(** ** Observations on a run *)

(** The run returned a response whose status is one of [codes]. *)
Definition answers {S : Type} (run : Outcome Response * World S)
    (codes : list N) : Prop :=
  exists r w', run = (Ok r, w') /\ In (status r) codes.

(** Between [w] and [w'] exactly the requests [cs] went to the service. *)
Definition sent {S : Type} (w w' : World S) (cs : list SdkCall) : Prop :=
  calls w' = (calls w ++ cs)%list.

(** Nothing went to the service and its state is the same. *)
Definition untouched {S : Type} (w w' : World S) : Prop :=
  calls w' = calls w /\ service w' = service w.


(** ** An in-memory storage service

    Follows the service's documented answers to the calls above: a container
    name is checked against the service's naming rules, [create] of an
    existing container is a 409, a missing container or blob is a 404, and an
    unreachable service answers nothing (no status code).  Listings come in
    the map's enumeration order. *)

Module Mem.

Record Blob : Type := mkBlob {
  data : Buffer;
  contentType : string;
  metadata : gmap string string;
  lastModified : string
}.

Record Container : Type := mkContainer {
  access : string;
  created : string;
  blobs : gmap string Blob
}.

Record State : Type := mkState {
  online : bool;
  containers : gmap string Container;
  today : string
}.

(** The service's naming rules for containers. *)
Definition valid_name (name : string) : bool :=
  ((3 <=? JsString.length name) && (JsString.length name <=? 63))%N
  && JsString.all name_char name
  && negb (JsString.startsWith name "-")
  && negb (JsString.endsWith name "-")
  && negb (JsString.includes name "--").

Definition unreachable {A} : Outcome A :=
  Throw (RestError None "getaddrinfo ENOTFOUND").
Definition invalid_name {A} : Outcome A :=
  Throw (RestError (Some 400%N) "InvalidResourceName").
Definition container_exists {A} : Outcome A :=
  Throw (RestError (Some 409%N) "ContainerAlreadyExists").
Definition container_missing {A} : Outcome A :=
  Throw (RestError (Some 404%N) "ContainerNotFound").
Definition blob_missing {A} : Outcome A :=
  Throw (RestError (Some 404%N) "BlobNotFound").

Definition with_containers (s : State) (m : gmap string Container) : State :=
  mkState (online s) m (today s).

Definition account : string := "https://account.blob.core.windows.net".

Definition mem_listContainers (s : State)
  : Outcome (list ContainerItem) * State :=
  if online s
  then (Ok ((fun kv => mkContainerItem (fst kv) (created (snd kv)))
              <$> map_to_list (containers s)), s)
  else (unreachable, s).

Definition mem_create (name acc : string) (s : State)
  : Outcome unit * State :=
  if online s then
    if valid_name name then
      match containers s !! name with
      | Some _ => (container_exists, s)
      | None =>
          (Ok tt,
           with_containers s
             (<[name := mkContainer acc (today s) ∅]> (containers s)))
      end
    else (invalid_name, s)
  else (unreachable, s).

Definition mem_createIfNotExists (name acc : string) (s : State)
  : Outcome unit * State :=
  if online s then
    if valid_name name then
      match containers s !! name with
      | Some _ => (Ok tt, s)
      | None =>
          (Ok tt,
           with_containers s
             (<[name := mkContainer acc (today s) ∅]> (containers s)))
      end
    else (invalid_name, s)
  else (unreachable, s).

Definition mem_uploadData (name blob : string) (buf : Buffer)
    (ctype : string) (md : list (string * string)) (s : State)
  : Outcome unit * State :=
  if online s then
    match containers s !! name with
    | Some c =>
        (Ok tt,
         with_containers s
           (<[name := mkContainer (access c) (created c)
                        (<[blob := mkBlob buf ctype (list_to_map md) (today s)]>
                           (blobs c))]> (containers s)))
    | None => (container_missing, s)
    end
  else (unreachable, s).

Definition blob_item (includeMetadata : bool) (kv : string * Blob) : BlobItem :=
  mkBlobItem (fst kv)
    (if includeMetadata then Some (metadata (snd kv)) else None)
    (lastModified (snd kv))
    (byteLength (data (snd kv)))
    (contentType (snd kv)).

Definition mem_listBlobsFlat (name : string) (includeMetadata : bool)
    (s : State) : Outcome (list BlobItem) * State :=
  if online s then
    match containers s !! name with
    | Some c => (Ok (blob_item includeMetadata <$> map_to_list (blobs c)), s)
    | None => (container_missing, s)
    end
  else (unreachable, s).

Definition mem_delete (name blob : string) (s : State)
  : Outcome unit * State :=
  if online s then
    match containers s !! name with
    | Some c =>
        match blobs c !! blob with
        | Some _ =>
            (Ok tt,
             with_containers s
               (<[name := mkContainer (access c) (created c)
                            (delete blob (blobs c))]> (containers s)))
        | None => (blob_missing, s)
        end
    | None => (container_missing, s)
    end
  else (unreachable, s).

#[global] Instance MemService : BlobService State := {
  fromConnectionString := fun _ => Ok tt;
  containerUrl := fun name => account +:+ "/" +:+ name;
  blobUrl := fun name blob => account +:+ "/" +:+ name +:+ "/" +:+ blob;
  listContainers := mem_listContainers;
  create := mem_create;
  createIfNotExists := mem_createIfNotExists;
  uploadData := mem_uploadData;
  listBlobsFlat := mem_listBlobsFlat;
  delete_blob := mem_delete
}.

(** Every container the service holds has a name the service accepts. *)
Definition wf (s : State) : Prop :=
  forall name c, containers s !! name = Some c -> valid_name name = true.

(** A configured process in front of service state [s]. *)
Definition world (s : State) : World State :=
  mkWorld (Some "UseDevelopmentStorage=true") s []
          (fun n => "uuid" +:+ JsString.toString n) 0 "2024-01-01T00:00:00.000Z".

Definition empty_service : State := mkState true ∅ "2024-01-01T00:00:00.000Z".

End Mem.

(** ** Observations on the in-memory service *)

(** Every container but [name] is in [s'] as it is in [s]. *)
Definition others_same (name : string) (s s' : Mem.State) : Prop :=
  forall name', name' <> name ->
                Mem.containers s' !! name' = Mem.containers s !! name'.

(** ** Client: what the dropzone lets through (FileUploader) *)

(** The [accept] option of [useDropzone]: MIME types and their extensions. *)
Definition accept : list (string * list string) :=
  [ ("application/pdf", [".pdf"]);
    ("application/msword", [".doc"]);
    ("application/vnd.openxmlformats-officedocument.wordprocessingml.document",
     [".docx"]);
    ("application/vnd.ms-excel", [".xls"]);
    ("application/vnd.openxmlformats-officedocument.spreadsheetml.sheet",
     [".xlsx"]);
    ("application/vnd.ms-powerpoint", [".ppt"]);
    ("application/vnd.openxmlformats-officedocument.presentationml.presentation",
     [".pptx"]);
    ("text/plain", [".txt"]);
    ("image/jpeg", [".jpg"; ".jpeg"]);
    ("image/png", [".png"]);
    ("image/gif", [".gif"]) ].

(** The [maxSize] option of [useDropzone]. *)
Definition maxSize : N := 100 * 1024 * 1024.

(** ** Client: the upload queue (FileUploader) *)

(** A browser [File]; [===] on files is identity, carried here by [file_id]. *)
Record File : Type := mkFile {
  file_id : N;
  file_name : string;
  file_size : N
}.

Definition same_file (a b : File) : bool := (file_id a =? file_id b)%N.

Record UploadProgress : Type := mkUploadProgress {
  loaded : N;
  total : N;
  percentage : N
}.

Inductive UploadStatus : Type :=
| pending | uploading | success | error.

Record FileUploadState : Type := mkFileUploadState {
  file : File;
  progress : UploadProgress;
  upload_status : UploadStatus;
  upload_error : option string
}.

(** The updates [onDrop] and [handleFileUpload] pass to [setUploadQueue],
    and [removeFromQueue]. *)
Definition onDrop_queue (acceptedFiles : list File)
    (prev : list FileUploadState) : list FileUploadState :=
  prev ++
  ((fun f => mkFileUploadState f (mkUploadProgress 0 (file_size f) 0)
               pending None) <$> acceptedFiles).

Definition set_uploading (f : File) (prev : list FileUploadState)
  : list FileUploadState :=
  (fun item =>
     if same_file (file item) f
     then mkFileUploadState (file item) (progress item) uploading
                            (upload_error item)
     else item) <$> prev.

Definition set_progress (f : File) (p : UploadProgress)
    (prev : list FileUploadState) : list FileUploadState :=
  (fun item =>
     if same_file (file item) f
     then mkFileUploadState (file item) p (upload_status item)
                            (upload_error item)
     else item) <$> prev.

Definition set_success (f : File) (prev : list FileUploadState)
  : list FileUploadState :=
  (fun item =>
     if same_file (file item) f
     then mkFileUploadState (file item) (progress item) success
                            (upload_error item)
     else item) <$> prev.

Definition set_error (f : File) (errorMessage : string)
    (prev : list FileUploadState) : list FileUploadState :=
  (fun item =>
     if same_file (file item) f
     then mkFileUploadState (file item) (progress item) error
                            (Some errorMessage)
     else item) <$> prev.

Definition removeFromQueue (f : File) (prev : list FileUploadState)
  : list FileUploadState :=
  List.filter (fun item => negb (same_file (file item) f)) prev.

(** What [handleFileUpload] does to the queue, one update at a time. *)
Inductive QueueUpdate : Type :=
| Uploading
| Progress (p : UploadProgress)
| Succeeded
| Failed (errorMessage : string).

Definition apply_update (f : File) (u : QueueUpdate)
    (prev : list FileUploadState) : list FileUploadState :=
  match u with
  | Uploading => set_uploading f prev
  | Progress p => set_progress f p prev
  | Succeeded => set_success f prev
  | Failed errorMessage => set_error f errorMessage prev
  end.

(** [getStatusColor] *)
Definition getStatusColor (st : UploadStatus) : string :=
  match st with
  | success => "success"
  | error => "error"
  | uploading => "primary"
  | pending => "default"
  end.

(** ** Client: the file list (FileViewer) *)

(** The props of the [Chip] element [getFileTypeChip] returns. *)
Record Chip : Type := mkChip {
  chip_size : string;
  chip_label : string;
  chip_color : string;
  chip_variant : string
}.

Definition getFileTypeChip (contentType : string) : Chip :=
  let '(label, color) :=
    if JsString.startsWith contentType "image/" then ("Image", "info")
    else if JsString.includes contentType "pdf" then ("PDF", "error")
    else if JsString.includes contentType "word"
            || JsString.includes contentType "document"
    then ("Word", "primary")
    else if JsString.includes contentType "excel"
            || JsString.includes contentType "spreadsheet"
    then ("Excel", "success")
    else if JsString.includes contentType "powerpoint"
            || JsString.includes contentType "presentation"
    then ("PowerPoint", "warning")
    else ("File", "default") in
  mkChip "small" label color "outlined".

(** [getFileIcon]; the emoji literals are the bytes of the source file. *)
Definition getFileIcon (contentType : string) : string :=
  if JsString.startsWith contentType "image/" then "🖼️"
  else if JsString.includes contentType "pdf" then "📄"
  else if JsString.includes contentType "word"
          || JsString.includes contentType "document"
  then "📝"
  else if JsString.includes contentType "excel"
          || JsString.includes contentType "spreadsheet"
  then "📊"
  else if JsString.includes contentType "powerpoint"
          || JsString.includes contentType "presentation"
  then "📈"
  else "📎".

(** ** Client: the create-container dialog (ContainerManager) *)

Record DialogState : Type := mkDialogState {
  isCreateDialogOpen : bool;
  newContainerName : string;
  nameError : string;
  (** names handed to [createContainerMutation.mutate], oldest first *)
  mutated : list string;
  (** [onNotification] calls: message and severity, oldest first *)
  notified : list (string * string)
}.

Definition initial_dialog : DialogState := mkDialogState false "" "" [] [].

Definition handleCreateContainer (s : DialogState) : DialogState :=
  let error := validateContainerName (newContainerName s) in
  if negb (JsString.falsy error)
  then mkDialogState (isCreateDialogOpen s) (newContainerName s) error
                     (mutated s) (notified s)
  else mkDialogState (isCreateDialogOpen s) (newContainerName s) (nameError s)
                     (mutated s ++ [newContainerName s]) (notified s).

Definition handleNameChange (value : string) (s : DialogState) : DialogState :=
  if negb (JsString.falsy (nameError s))
  then mkDialogState (isCreateDialogOpen s) value (validateContainerName value)
                     (mutated s) (notified s)
  else mkDialogState (isCreateDialogOpen s) value (nameError s)
                     (mutated s) (notified s).

(** [onSuccess] of the mutation; [name] is [data.name]. *)
Definition onCreateSuccess (name : string) (s : DialogState) : DialogState :=
  mkDialogState false "" (nameError s) (mutated s)
    (notified s ++
     [("Container " +:+ String (ascii_of_N 34) name +:+
       String (ascii_of_N 34) " created successfully!", "success")]).

(** [onError] of the mutation; [serverError] is [error.response?.data?.error]. *)
Definition onCreateError (serverError : option string) (s : DialogState)
  : DialogState :=
  mkDialogState (isCreateDialogOpen s) (newContainerName s) (nameError s)
    (mutated s)
    (notified s ++ [(or_else serverError "Failed to create container", "error")]).

Definition setIsCreateDialogOpen (open : bool) (s : DialogState) : DialogState :=
  mkDialogState open (newContainerName s) (nameError s) (mutated s) (notified s).

(** The [disabled] prop of the Create button. *)
Definition create_disabled (isLoading : bool) (s : DialogState) : bool :=
  negb (JsString.falsy (nameError s)) || JsString.falsy (newContainerName s)
  || isLoading.

Inductive DialogEvent : Type :=
| OpenDialog
| CloseDialog
| NameChange (value : string)
| ClickCreate
| MutationSuccess (name : string)
| MutationError (serverError : option string).

Definition dialog_step (s : DialogState) (e : DialogEvent) : DialogState :=
  match e with
  | OpenDialog => setIsCreateDialogOpen true s
  | CloseDialog => setIsCreateDialogOpen false s
  | NameChange value => handleNameChange value s
  | ClickCreate => handleCreateContainer s
  | MutationSuccess name => onCreateSuccess name s
  | MutationError serverError => onCreateError serverError s
  end.

Definition dialog_run (events : list DialogEvent) (s : DialogState)
  : DialogState :=
  fold_left dialog_step events s.

(** The error shown, if any, is the validator's verdict on the text. *)
Definition error_is_current (s : DialogState) : Prop :=
  nameError s = "" \/ nameError s = validateContainerName (newContainerName s).

(** Every event but the mutation's [onSuccess], which resets the text. *)
Definition keeps_text (e : DialogEvent) : Prop :=
  match e with
  | MutationSuccess _ => False
  | _ => True
  end.

(** ** Sample requests *)

Definition zip_part : FilePart :=
  mkFilePart "archive.zip" "application/zip" (mkBuffer 3 (fun _ => Byte.x00)).

Definition report_pdf : FilePart :=
  mkFilePart "report.pdf" "application/pdf" (mkBuffer 600 (fun _ => Byte.x00)).

(** 100 MiB and one byte. *)
Definition huge_pdf : FilePart :=
  mkFilePart "huge.pdf" "application/pdf"
    (mkBuffer (100 * 1024 * 1024 + 1) (fun _ => Byte.x00)).

Definition huge_zip : FilePart :=
  mkFilePart "huge.zip" "application/zip"
    (mkBuffer (100 * 1024 * 1024 + 1) (fun _ => Byte.x00)).

(** A service holding the empty container [test-docs]. *)
Definition docs_service : Mem.State :=
  Mem.mkState true
    {[ "test-docs" := Mem.mkContainer "blob" "2024-01-01T00:00:00.000Z" ∅ ]}
    "2024-01-01T00:00:00.000Z".

(** [docs_service] after [report.pdf] was stored in [test-docs]. *)
Definition stocked_service : Mem.State :=
  snd (Mem.mem_uploadData "test-docs" "uuid0-report.pdf"
         (part_data report_pdf) "application/pdf"
         [("originalName", "report.pdf");
          ("uploadDate", "2024-01-01T00:00:00.000Z");
          ("fileSize", "600")]
         docs_service).

(** What the service lists for [test-docs] in [stocked_service]. *)
Definition stocked_listing : list BlobItem :=
  [mkBlobItem "uuid0-report.pdf"
     (Some (list_to_map [("originalName", "report.pdf");
                         ("uploadDate", "2024-01-01T00:00:00.000Z");
                         ("fileSize", "600")]))
     "2024-01-01T00:00:00.000Z" 600 "application/pdf"].

(** A listed blob whose [originalName] tag is the empty string. *)
Definition untitled_blob : BlobItem :=
  mkBlobItem "uuid0-report.pdf" (Some {[ "originalName" := "" ]})
             "2024-01-01T00:00:00.000Z" 600 "application/pdf".

(** * Theorems *)

Example toString_600 : JsString.toString 600 = "600".
Proof. reflexivity. Qed.

Example validate_ok : validateContainerName "test-docs" = "".
Proof. reflexivity. Qed.

Example validate_AB : validateContainerName "AB" = msg_length.
Proof. reflexivity. Qed.

Example post_AB :
  post_containers (Some "AB") (Mem.world Mem.empty_service)
  = (Ok (res_status_json 400 (error_body msg_charset)), Mem.world Mem.empty_service).
Proof. reflexivity. Qed.

(** ** String primitives meet their meaning *)

Section StringFacts.

Import JsString.

Lemma falsy_spec s : falsy s = true <-> s = "".
Proof. destruct s; simpl; split; congruence. Qed.

Lemma startsWith_spec s p : startsWith s p = true <-> exists t, s = p +:+ t.
Proof.
  revert s. induction p as [|b p IH]; intros s; simpl.
  - split; [intros _; exists s; reflexivity | reflexivity].
  - destruct s as [|a s].
    + split; [discriminate | intros [t Ht]; discriminate].
    + rewrite andb_true_iff, Ascii.eqb_eq, IH. split.
      * intros [-> [t ->]]. eauto.
      * intros [t Ht]. injection Ht as -> ->. eauto.
Qed.

Lemma endsWith_spec s p : endsWith s p = true <-> exists t, s = t +:+ p.
Proof.
  induction s as [|a s IH]; cbn [endsWith].
  - rewrite orb_false_r, String.eqb_eq. split.
    + intros <-. exists "". reflexivity.
    + intros [[|b t] Ht]; simpl in Ht; [auto | discriminate].
  - rewrite orb_true_iff, String.eqb_eq, IH. split.
    + intros [<- | [t ->]].
      * exists "". reflexivity.
      * exists (String a t). reflexivity.
    + intros [[|b t] Ht]; simpl in Ht.
      * left. assumption.
      * right. injection Ht as -> ->. eauto.
Qed.

Lemma includes_spec s p :
  includes s p = true <-> exists u v, s = u +:+ p +:+ v.
Proof.
  induction s as [|a s IH]; cbn [includes].
  - rewrite orb_false_r, startsWith_spec. split.
    + intros [t Ht]. exists "", t. assumption.
    + intros [[|b u] [v Huv]]; simpl in Huv; [eauto | discriminate].
  - rewrite orb_true_iff, IH. split.
    + intros [H | [u [v ->]]].
      * apply (startsWith_spec (String a s) p) in H as [t Ht].
        exists "", t. assumption.
      * exists (String a u), v. reflexivity.
    + intros [[|b u] [v Huv]]; simpl in Huv.
      * left. apply (startsWith_spec (String a s) p). eauto.
      * right. injection Huv as -> ->. eauto.
Qed.

Lemma all_spec f s :
  all f s = true <-> Forall (fun c => f c = true) (NameRules.chars s).
Proof.
  unfold NameRules.chars. induction s as [|a s IH]; simpl.
  - split; [constructor | reflexivity].
  - rewrite andb_true_iff, IH, Forall_cons. reflexivity.
Qed.

Lemma length_spec s : JsString.length s = N.of_nat (String.length s).
Proof. reflexivity. Qed.

End StringFacts.

Lemma name_char_spec c : name_char c = true <-> NameRules.in_class c.
Proof.
  unfold name_char, NameRules.in_class, NameRules.code.
  change (N_of_ascii "a") with 97%N. change (N_of_ascii "z") with 122%N.
  change (N_of_ascii "0") with 48%N. change (N_of_ascii "9") with 57%N.
  rewrite !orb_true_iff, !andb_true_iff, !N.leb_le, N.eqb_eq.
  assert (N_of_ascii c = 45%N <-> c = "-"%char) as ->; [|tauto].
  split.
  - intros H. rewrite <- (ascii_N_embedding c), H. reflexivity.
  - intros ->. reflexivity.
Qed.

(** ** The container name validator *)

Section ValidatorFacts.

Import NameRules.

Lemma required_test s : JsString.falsy s = true <-> is_empty s.
Proof. apply falsy_spec. Qed.

Lemma length_test s :
  ((JsString.length s <? 3) || (63 <? JsString.length s))%N = true
  <-> bad_length s.
Proof.
  unfold bad_length, JsString.length.
  rewrite orb_true_iff, !N.ltb_lt. lia.
Qed.

Lemma class_test s :
  JsString.all name_char s = true <-> Forall in_class (chars s).
Proof.
  rewrite all_spec. apply Forall_proper; [|reflexivity].
  intros c. apply name_char_spec.
Qed.

Lemma charset_test s :
  s <> "" -> (negb (re_name_test s) = true <-> bad_charset s).
Proof.
  intros Hne. unfold re_name_test, bad_charset.
  destruct (JsString.falsy s) eqn:Hf; [apply falsy_spec in Hf; contradiction|].
  cbn [negb andb]. rewrite negb_true_iff, <- not_true_iff_false, class_test.
  rewrite <- Exists_Forall_neg by (intros c; rewrite <- name_char_spec;
    destruct (name_char c); [left | right]; congruence).
  rewrite Exists_exists. reflexivity.
Qed.

Lemma edge_test s :
  JsString.startsWith s "-" || JsString.endsWith s "-" = true
  <-> edge_hyphen s.
Proof.
  unfold edge_hyphen.
  rewrite orb_true_iff, startsWith_spec, endsWith_spec. reflexivity.
Qed.

Lemma double_test s : JsString.includes s "--" = true <-> double_hyphen s.
Proof. apply includes_spec. Qed.

(** The validator reports the first rule, in checking order, that fails. *)
Lemma validate_first_failing s r :
  violates r s ->
  (forall r', position r' < position r -> ~ violates r' s) ->
  validateContainerName s = reason r.
Proof.
  intros Hr Hfirst. unfold validateContainerName.
  destruct (JsString.falsy s) eqn:E1.
  { apply required_test in E1.
    destruct r; try reflexivity;
      exfalso; apply (Hfirst Required); simpl; (lia || assumption). }
  assert (s <> "") as Hne
    by (intros H; apply required_test in H; congruence).
  destruct (_ || _)%N eqn:E2.
  { apply length_test in E2.
    destruct r; try reflexivity; simpl in Hr; try contradiction;
      exfalso; apply (Hfirst Length); simpl; (lia || assumption). }
  assert (~ bad_length s) as Hlen
    by (rewrite <- length_test; congruence).
  destruct (negb (re_name_test s)) eqn:E3.
  { apply (charset_test s Hne) in E3.
    destruct r; try reflexivity; simpl in Hr; try contradiction;
      exfalso; apply (Hfirst Charset); simpl; (lia || assumption). }
  assert (~ bad_charset s) as Hcs
    by (rewrite <- (charset_test s Hne); congruence).
  destruct (JsString.startsWith s "-" || JsString.endsWith s "-") eqn:E4.
  { apply edge_test in E4.
    destruct r; try reflexivity; simpl in Hr; try contradiction;
      exfalso; apply (Hfirst EdgeHyphen); simpl; (lia || assumption). }
  assert (~ edge_hyphen s) as Hedge
    by (rewrite <- edge_test; congruence).
  destruct (JsString.includes s "--") eqn:E5.
  { destruct r; try reflexivity; simpl in Hr; contradiction. }
  assert (~ double_hyphen s) as Hdbl
    by (rewrite <- double_test; congruence).
  destruct r; simpl in Hr; contradiction.
Qed.

Lemma well_formed_no_violation s r : well_formed s -> ~ violates r s.
Proof.
  intros [[Hlen Hcls] [Hedge Hdbl]].
  destruct r; simpl; try assumption.
  - intros ->. simpl in Hlen. lia.
  - unfold bad_length. lia.
  - intros [c [Hin Hc]]. rewrite Forall_forall in Hcls.
    apply Hc, Hcls, Hin.
Qed.

Lemma validate_accepts s : well_formed s -> validateContainerName s = "".
Proof.
  intros Hwf. unfold validateContainerName.
  pose proof (well_formed_no_violation s) as Hno.
  destruct (JsString.falsy s) eqn:E1.
  { destruct (Hno Required Hwf). apply required_test, E1. }
  assert (s <> "") as Hne by apply (Hno Required Hwf).
  destruct (_ || _)%N eqn:E2.
  { destruct (Hno Length Hwf). apply length_test, E2. }
  destruct (negb (re_name_test s)) eqn:E3.
  { destruct (Hno Charset Hwf). apply (charset_test s Hne), E3. }
  destruct (JsString.startsWith s "-" || JsString.endsWith s "-") eqn:E4.
  { destruct (Hno EdgeHyphen Hwf). apply edge_test, E4. }
  destruct (JsString.includes s "--") eqn:E5.
  { destruct (Hno DoubleHyphen Hwf). apply double_test, E5. }
  reflexivity.
Qed.

(** The validator accepts nothing else. *)
Lemma validate_accepts_only s : validateContainerName s = "" -> well_formed s.
Proof.
  unfold validateContainerName.
  destruct (JsString.falsy s) eqn:E1; [discriminate|].
  assert (s <> "") as Hne
    by (intros H; apply required_test in H; congruence).
  destruct (_ || _)%N eqn:E2; [discriminate|].
  destruct (negb (re_name_test s)) eqn:E3; [discriminate|].
  destruct (JsString.startsWith s "-" || JsString.endsWith s "-") eqn:E4;
    [discriminate|].
  destruct (JsString.includes s "--") eqn:E5; [discriminate|].
  intros _. repeat split.
  - rewrite <- not_true_iff_false, length_test in E2.
    unfold bad_length in E2. lia.
  - rewrite <- not_true_iff_false, length_test in E2.
    unfold bad_length in E2. lia.
  - apply class_test. apply negb_false_iff in E3.
    unfold re_name_test in E3. apply andb_true_iff in E3. tauto.
  - rewrite <- edge_test. congruence.
  - rewrite <- double_test. congruence.
Qed.

End ValidatorFacts.

(** C1.  A name matching [^[a-z0-9-]{3,63}$] with no hyphen at either end and
    no two hyphens in a row is accepted (the empty string is returned).  A
    name that violates a rule and none of the rules checked before it gets
    that rule's reason; the order is empty, length outside 3..63, a character
    outside [a-z0-9-], a hyphen at either end, two hyphens in a row.  In
    particular a name that violates exactly one rule gets the reason of that
    rule. *)
Theorem validateContainerName_rules (s : string) :
  (NameRules.well_formed s -> validateContainerName s = "") /\
  (forall r,
      NameRules.violates r s ->
      (forall r', NameRules.position r' < NameRules.position r ->
                  ~ NameRules.violates r' s) ->
      validateContainerName s = NameRules.reason r) /\
  (forall r,
      NameRules.violates r s ->
      (forall r', r' <> r -> ~ NameRules.violates r' s) ->
      validateContainerName s = NameRules.reason r).
Proof.
  split; [apply validate_accepts|].
  split; [apply validate_first_failing|].
  intros r Hr Honly. apply validate_first_failing; [assumption|].
  intros r' Hlt. apply Honly. intros ->. lia.
Qed.

(** Settles [violates r s] or its negation on a concrete name by running
    the corresponding test. *)
Ltac run_rule :=
  lazymatch goal with
  | |- ~ NameRules.violates _ _ => cbn [NameRules.violates]; run_rule
  | |- NameRules.violates _ _ => cbn [NameRules.violates]; run_rule
  | |- ~ NameRules.is_empty _ => discriminate
  | |- ~ NameRules.bad_length _ =>
      rewrite <- length_test; vm_compute; discriminate
  | |- ~ NameRules.bad_charset _ =>
      rewrite <- charset_test by discriminate; vm_compute; discriminate
  | |- ~ NameRules.edge_hyphen _ =>
      rewrite <- edge_test; vm_compute; discriminate
  | |- ~ NameRules.double_hyphen _ =>
      rewrite <- double_test; vm_compute; discriminate
  | |- NameRules.is_empty _ => reflexivity
  | |- NameRules.bad_length _ => apply length_test; reflexivity
  | |- NameRules.bad_charset _ =>
      apply charset_test; [discriminate | reflexivity]
  | |- NameRules.edge_hyphen _ => apply edge_test; reflexivity
  | |- NameRules.double_hyphen _ => apply double_test; reflexivity
  | |- NameRules.matches_3_63 _ =>
      split; [cbn; lia | apply class_test; reflexivity]
  | |- NameRules.well_formed _ => split; [run_rule | split; run_rule]
  end.

Lemma validateContainerName_rules_witness :
  validateContainerName "test-docs" = "" /\
  validateContainerName "a--b-" = msg_edge_hyphen /\
  validateContainerName "ab_c" = msg_charset.
Proof.
  split; [|split].
  - apply (proj1 (validateContainerName_rules "test-docs")). run_rule.
  - apply (proj1 (proj2 (validateContainerName_rules "a--b-"))
             NameRules.EdgeHyphen).
    + run_rule.
    + intros r' Hlt. destruct r'; cbn in Hlt; try lia; run_rule.
  - apply (proj2 (proj2 (validateContainerName_rules "ab_c"))
             NameRules.Charset).
    + run_rule.
    + intros r' Hne. destruct r'; try congruence; run_rule.
Defined.

(** ** Running handlers *)

Section ServerFacts.

Context {S : Type} `{svc : BlobService S}.

Lemma bind_ok {A B} (m : M S A) (k : A -> M S B) w a w' :
  m w = (Ok a, w') -> bind m k w = k a w'.
Proof. unfold bind. intros ->. reflexivity. Qed.

Lemma bind_throw {A B} (m : M S A) (k : A -> M S B) w e w' :
  m w = (Throw e, w') -> bind m k w = (Throw e, w').
Proof. unfold bind. intros ->. reflexivity. Qed.

Lemma try_catch_ok {A} (m : M S A) h w a w' :
  m w = (Ok a, w') -> try_catch m h w = (Ok a, w').
Proof. unfold try_catch. intros ->. reflexivity. Qed.

Lemma try_catch_throw {A} (m : M S A) h w e w' :
  m w = (Throw e, w') -> try_catch m h w = h e w'.
Proof. unfold try_catch. intros ->. reflexivity. Qed.

Lemma sdk_answer {A} c (op : S -> Outcome A * S) w r s' :
  op (service w) = (r, s') -> sdk c op w = (r, answered w c s').
Proof. unfold sdk. intros ->. reflexivity. Qed.

Lemma getBlobServiceClient_configured w :
  configured w -> getBlobServiceClient w = (Ok tt, w).
Proof.
  intros (cs & Henv & Hne & Hparse). unfold getBlobServiceClient.
  rewrite Henv. destruct (JsString.falsy cs) eqn:Hf.
  - apply falsy_spec in Hf. contradiction.
  - rewrite Hparse. reflexivity.
Qed.

Lemma configured_dec w : configured w \/ ~ configured w.
Proof.
  unfold configured.
  destruct (env_connectionString w) as [cs|];
    [|right; intros (cs & H & _); discriminate].
  destruct (JsString.falsy cs) eqn:Hf.
  { apply falsy_spec in Hf. right. intros (cs' & [= <-] & Hne & _).
    contradiction. }
  destruct (fromConnectionString cs) as [[]|e] eqn:Hparse.
  - left. exists cs. repeat split; [|assumption].
    intros ->. discriminate.
  - right. intros (cs' & [= <-] & _ & H). congruence.
Qed.

(** The adapter never touches the world; it returns or throws. *)
Lemma getBlobServiceClient_world w : snd (getBlobServiceClient w) = w.
Proof.
  unfold getBlobServiceClient.
  destruct (env_connectionString w) as [cs|]; [|reflexivity].
  destruct (JsString.falsy cs); reflexivity.
Qed.

Lemma getContainerClient_created containerName w s1 :
  configured w ->
  createIfNotExists containerName "blob" (service w) = (Ok tt, s1) ->
  getContainerClient containerName w
  = (Ok containerName,
     answered w (CallCreateIfNotExists containerName "blob") s1).
Proof.
  intros Hcfg Hcreate. unfold getContainerClient.
  rewrite (bind_ok _ _ _ _ _ (getBlobServiceClient_configured w Hcfg)).
  rewrite (bind_ok _ _ _ _ _ (sdk_answer _ _ _ _ _ Hcreate)).
  reflexivity.
Qed.

Lemma getContainerClient_refused containerName w e s1 :
  configured w ->
  createIfNotExists containerName "blob" (service w) = (Throw e, s1) ->
  getContainerClient containerName w
  = (Throw e, answered w (CallCreateIfNotExists containerName "blob") s1).
Proof.
  intros Hcfg Hcreate. unfold getContainerClient.
  rewrite (bind_ok _ _ _ _ _ (getBlobServiceClient_configured w Hcfg)).
  rewrite (bind_throw _ _ _ _ _ (sdk_answer _ _ _ _ _ Hcreate)).
  reflexivity.
Qed.

(** The guard of [POST /api/containers]. *)
Lemma guard_test name :
  JsString.falsy name || negb (re_name_test name) = true
  <-> NameRules.is_empty name \/ NameRules.bad_charset name.
Proof.
  destruct (JsString.falsy name) eqn:Hf; cbn [orb].
  - apply falsy_spec in Hf. split; [left; assumption | reflexivity].
  - assert (name <> "") as Hne
      by (intros H; apply falsy_spec in H; congruence).
    rewrite (charset_test name Hne). unfold NameRules.is_empty. tauto.
Qed.

(** Whatever service is behind it, a create call answered with status 409
    becomes the 409 of the handler, and nothing else is sent. *)
Lemma post_containers_conflict name (w : World S) msg s' :
  JsString.falsy name || negb (re_name_test name) = false ->
  configured w ->
  create name "blob" (service w) = (Throw (RestError (Some 409%N) msg), s') ->
  post_containers (Some name) w
  = (Ok (res_status_json 409 (error_body "Container already exists")),
     answered w (CallCreate name "blob") s').
Proof.
  intros Hguard Hcfg Hcreate. unfold post_containers, try_catch.
  rewrite Hguard.
  rewrite (bind_ok _ _ _ _ _ (getBlobServiceClient_configured w Hcfg)).
  rewrite (bind_throw _ _ _ _ _ (sdk_answer _ _ _ _ _ Hcreate)).
  reflexivity.
Qed.

End ServerFacts.

(** ** POST /api/containers *)

(** C2, as the code has it.  A request whose name is missing, empty, or has
    a character outside [a-z0-9-] is answered 400 with the character-set
    message and the world is left as it was: nothing is sent to the storage
    service.  The name [AB] is such a request.  The handler checks nothing
    else: for a non-empty name over [a-z0-9-], whatever its length and
    hyphens, a configured process sends the create call to the service. *)
Theorem post_containers_guard {S : Type} `{svc : BlobService S}
    (name : option string) (w : World S) :
  ((name = None \/
    exists n, name = Some n /\
              (NameRules.is_empty n \/ NameRules.bad_charset n)) ->
   post_containers name w
   = (Ok (res_status_json 400 (error_body msg_charset)), w)) /\
  post_containers (Some "AB") w
  = (Ok (res_status_json 400 (error_body msg_charset)), w) /\
  (forall n,
      name = Some n ->
      ~ NameRules.is_empty n -> ~ NameRules.bad_charset n ->
      configured w ->
      calls (snd (post_containers name w))
      = (calls w ++ [CallCreate n "blob"])%list).
Proof.
  split; [|split].
  - intros [-> | (n & -> & Hbad)]; [reflexivity|].
    apply guard_test in Hbad. unfold post_containers, try_catch.
    rewrite Hbad. reflexivity.
  - reflexivity.
  - intros n -> Hne Hcs Hcfg.
    assert (JsString.falsy n || negb (re_name_test n) = false) as Hguard.
    { apply not_true_iff_false. rewrite guard_test. tauto. }
    unfold post_containers, try_catch. rewrite Hguard.
    rewrite (bind_ok _ _ _ _ _ (getBlobServiceClient_configured w Hcfg)).
    destruct (create n "blob" (service w)) as [[[]|e] s'] eqn:Hcreate.
    + rewrite (bind_ok _ _ _ _ _ (sdk_answer _ _ _ _ _ Hcreate)).
      reflexivity.
    + rewrite (bind_throw _ _ _ _ _ (sdk_answer _ _ _ _ _ Hcreate)).
      destruct (decide _); reflexivity.
Qed.

Lemma post_containers_guard_witness :
  post_containers (Some "my_docs") (Mem.world Mem.empty_service)
  = (Ok (res_status_json 400 (error_body msg_charset)),
     Mem.world Mem.empty_service) /\
  calls (snd (post_containers (Some "a--b-") (Mem.world Mem.empty_service)))
  = [CallCreate "a--b-" "blob"].
Proof.
  split.
  - apply (proj1 (post_containers_guard (Some "my_docs") _)).
    right. exists "my_docs". split; [reflexivity|]. right. run_rule.
  - apply (proj2 (proj2 (post_containers_guard (Some "a--b-")
                           (Mem.world Mem.empty_service))) "a--b-").
    + reflexivity.
    + run_rule.
    + run_rule.
    + exists "UseDevelopmentStorage=true". repeat split. discriminate.
Defined.

(** C2 fails as stated: the two-character name [ab] breaks the length rule,
    yet the handler sends the create call; the service turns the name down
    and the answer is 500, not 400. *)
Lemma post_containers_short_name_reaches_storage :
  NameRules.violates NameRules.Length "ab" /\
  exists w',
    post_containers (Some "ab") (Mem.world Mem.empty_service)
    = (Ok (res_status_json 500 (error_body "Failed to create container")), w')
    /\ calls w' = [CallCreate "ab" "blob"].
Proof.
  split; [run_rule|].
  eexists. split; reflexivity.
Qed.

(** ** POST /api/upload/:containerName *)

Section UploadFacts.

Context {S : Type} `{svc : BlobService S}.

Lemma multer_rejects_type p :
  array_includes allowedTypes (part_mimetype p) = false ->
  multer_single upload (Some p) = NextError (Error "File type not supported").
Proof.
  intros H. unfold multer_single, upload. cbn [fileFilter].
  rewrite H. reflexivity.
Qed.

Lemma multer_rejects_size p :
  array_includes allowedTypes (part_mimetype p) = true ->
  (100 * 1024 * 1024 < byteLength (part_data p))%N ->
  multer_single upload (Some p) = NextError (MulterError "LIMIT_FILE_SIZE").
Proof.
  intros H Hsize. unfold multer_single, upload.
  cbn [fileFilter limits_fileSize]. rewrite H.
  apply N.ltb_lt in Hsize. rewrite Hsize. reflexivity.
Qed.

Lemma multer_accepts p :
  array_includes allowedTypes (part_mimetype p) = true ->
  (byteLength (part_data p) <= 100 * 1024 * 1024)%N ->
  multer_single upload (Some p)
  = NextHandler (Some (mkMulterFile (part_originalname p) (part_data p)
                         (part_mimetype p) (byteLength (part_data p)))).
Proof.
  intros H Hsize. unfold multer_single, upload.
  cbn [fileFilter limits_fileSize]. rewrite H.
  apply N.ltb_ge in Hsize. rewrite Hsize. reflexivity.
Qed.

Lemma configured_drawn (w : World S) : configured w -> configured (drawn w).
Proof. intros H. exact H. Qed.

(** A type off the list ends in the error middleware, and the world is left
    as it was. *)
Lemma post_upload_type_rejected containerName p (w : World S) :
  array_includes allowedTypes (part_mimetype p) = false ->
  post_upload containerName (Some p) w
  = (Ok (res_status_json 500 (error_body "Internal server error")), w).
Proof.
  intros H. unfold post_upload. rewrite (multer_rejects_type p H).
  reflexivity.
Qed.

End UploadFacts.

(** C3, at a failing input.  A three-byte upload declared as
    [application/zip] is turned down by the file filter; the error it raises
    is a plain [Error], so the error middleware answers 500 with
    [Internal server error].  Nothing is sent to the storage service. *)
Theorem post_upload_zip_internal_error :
  array_includes allowedTypes (part_mimetype zip_part) = false /\
  post_upload "test-docs" (Some zip_part) (Mem.world Mem.empty_service)
  = (Ok (res_status_json 500 (error_body "Internal server error")),
     Mem.world Mem.empty_service).
Proof. split; reflexivity. Qed.

(** C5, as the code has it.  An upload whose declared type is on the list
    and whose size is below 100 MiB, handled by a configured process whose
    two storage calls (create-if-absent for the container, then the upload)
    both return, is answered 200; [size] is the byte length of the input,
    [originalName] its file name, [filename] the drawn identifier, a hyphen,
    and the file name.  The storage service is left in the state the upload
    call produced.  A backend that can be reached is not enough: it must
    also accept the container name. *)
Theorem post_upload_succeeds {S : Type} `{svc : BlobService S}
    (containerName : string) (p : FilePart) (w : World S) (s1 s2 : S) :
  let uuid := uuid_source w (uuid_drawn w) in
  let uniqueFilename := uuid +:+ "-" +:+ part_originalname p in
  let metadata :=
    [("originalName", part_originalname p);
     ("uploadDate", now w);
     ("fileSize", JsString.toString (byteLength (part_data p)))] in
  array_includes allowedTypes (part_mimetype p) = true ->
  (byteLength (part_data p) < 100 * 1024 * 1024)%N ->
  configured w ->
  createIfNotExists containerName "blob" (service w) = (Ok tt, s1) ->
  uploadData containerName uniqueFilename (part_data p) (part_mimetype p)
             metadata s1 = (Ok tt, s2) ->
  exists w',
    post_upload containerName (Some p) w
    = (Ok (res_json
             (JObj [("message", JStr "File uploaded successfully");
                    ("filename", JStr uniqueFilename);
                    ("originalName", JStr (part_originalname p));
                    ("url", JStr (blobUrl containerName uniqueFilename));
                    ("size", JNum (byteLength (part_data p)));
                    ("container", JStr containerName)])), w')
    /\ service w' = s2
    /\ calls w'
       = (calls w ++
          [CallCreateIfNotExists containerName "blob";
           CallUploadData containerName uniqueFilename (part_data p)
                          (part_mimetype p) metadata])%list.
Proof.
  intros uuid uniqueFilename metadata Htype Hsize Hcfg Hcreate Hupload.
  unfold post_upload. rewrite (multer_accepts p Htype (N.lt_le_incl _ _ Hsize)).
  unfold upload_handler. cbn [originalname buffer mimetype size].
  eexists. split; [|split].
  - apply try_catch_ok.
    rewrite (bind_ok uuidv4 _ w uuid (drawn w) eq_refl).
    rewrite (bind_ok _ _ _ _ _
               (getContainerClient_created containerName (drawn w) s1
                  (configured_drawn w Hcfg) Hcreate)).
    rewrite (bind_ok new_Date_toISOString _ _ _ _ eq_refl).
    cbn [now answered drawn].
    rewrite (bind_ok _ _ _ _ _
               (sdk_answer _ _
                  (answered (drawn w)
                     (CallCreateIfNotExists containerName "blob") s1)
                  _ _ Hupload)).
    reflexivity.
  - reflexivity.
  - cbn. rewrite <- app_assoc. reflexivity.
Qed.

Lemma post_upload_succeeds_witness :
  exists w',
    post_upload "test-docs" (Some report_pdf) (Mem.world Mem.empty_service)
    = (Ok (res_json
             (JObj [("message", JStr "File uploaded successfully");
                    ("filename", JStr "uuid0-report.pdf");
                    ("originalName", JStr "report.pdf");
                    ("url", JStr (Mem.account +:+ "/test-docs/uuid0-report.pdf"));
                    ("size", JNum 600);
                    ("container", JStr "test-docs")])), w').
Proof.
  destruct (post_upload_succeeds "test-docs" report_pdf
              (Mem.world Mem.empty_service)
              (snd (Mem.mem_createIfNotExists "test-docs" "blob"
                      Mem.empty_service))
              (snd (Mem.mem_uploadData "test-docs" "uuid0-report.pdf"
                      (part_data report_pdf) "application/pdf"
                      [("originalName", "report.pdf");
                       ("uploadDate", "2024-01-01T00:00:00.000Z");
                       ("fileSize", "600")]
                      (snd (Mem.mem_createIfNotExists "test-docs" "blob"
                              Mem.empty_service)))))
    as (w' & Hrun & _).
  - reflexivity.
  - reflexivity.
  - exists "UseDevelopmentStorage=true". repeat split. discriminate.
  - reflexivity.
  - reflexivity.
  - exists w'. exact Hrun.
Defined.

(** C5 fails as stated: a 600-byte PDF, of a listed type and far below the
    ceiling, uploaded to the container [AB] on a reachable service by a
    configured process is answered 500: the service turns the container name
    down at create-if-absent and the upload is never attempted. *)
Lemma post_upload_reachable_backend_refuses :
  array_includes allowedTypes (part_mimetype report_pdf) = true /\
  (byteLength (part_data report_pdf) <= 100 * 1024 * 1024)%N /\
  Mem.online docs_service = true /\
  configured (Mem.world docs_service) /\
  exists w',
    post_upload "AB" (Some report_pdf) (Mem.world docs_service)
    = (Ok (res_status_json 500 (error_body "Failed to upload file")), w') /\
    calls w' = [CallCreateIfNotExists "AB" "blob"] /\
    service w' = docs_service.
Proof.
  split; [reflexivity|]. split; [vm_compute; discriminate|].
  split; [reflexivity|]. split.
  - exists "UseDevelopmentStorage=true". repeat split. discriminate.
  - eexists. repeat split.
Qed.

(** C6, as the code has it.  An upload whose declared type is on the list
    and whose size exceeds 100 MiB is answered 400 with the too-large message,
    and the world is left as it was: nothing was stored, nothing was sent to
    the storage service. *)
Theorem post_upload_too_large {S : Type} `{svc : BlobService S}
    (containerName : string) (p : FilePart) (w : World S) :
  array_includes allowedTypes (part_mimetype p) = true ->
  (100 * 1024 * 1024 < byteLength (part_data p))%N ->
  post_upload containerName (Some p) w
  = (Ok (res_status_json 400
           (error_body "File too large. Maximum size is 100MB.")), w).
Proof.
  intros Htype Hsize. unfold post_upload.
  rewrite (multer_rejects_size p Htype Hsize). reflexivity.
Qed.

Lemma post_upload_too_large_witness :
  post_upload "test-docs" (Some huge_pdf) (Mem.world Mem.empty_service)
  = (Ok (res_status_json 400
           (error_body "File too large. Maximum size is 100MB.")),
     Mem.world Mem.empty_service).
Proof.
  apply post_upload_too_large.
  - reflexivity.
  - vm_compute. reflexivity.
Defined.

(** C6 fails as stated: an upload of 100 MiB and one byte declared as
    [application/zip] is stopped by the file filter before its size is
    looked at, and the answer is 500. *)
Lemma post_upload_too_large_wrong_type :
  (100 * 1024 * 1024 < byteLength (part_data huge_zip))%N /\
  post_upload "test-docs" (Some huge_zip) (Mem.world Mem.empty_service)
  = (Ok (res_status_json 500 (error_body "Internal server error")),
     Mem.world Mem.empty_service).
Proof. split; reflexivity. Qed.

(** ** The in-memory service *)

Section MemFacts.

Import Mem.

Lemma world_configured s : configured (world s).
Proof. exists "UseDevelopmentStorage=true". repeat split. discriminate. Qed.

(** A name the service accepts passes the guard of [POST /api/containers]. *)
Lemma valid_name_guard name :
  valid_name name = true ->
  JsString.falsy name || negb (re_name_test name) = false.
Proof.
  unfold valid_name, re_name_test.
  rewrite !andb_true_iff, !N.leb_le. intros [[[[[Hlo _] Hcls] _] _] _].
  destruct name as [|a name]; [exfalso; apply Hlo; reflexivity|].
  cbn [JsString.falsy negb orb andb]. rewrite Hcls. reflexivity.
Qed.

Lemma wf_empty : wf empty_service.
Proof. intros name c H. cbn in H. rewrite lookup_empty in H. discriminate. Qed.

Lemma wf_insert s name c :
  wf s -> valid_name name = true ->
  wf (with_containers s (<[name := c]> (containers s))).
Proof.
  intros Hwf Hname name' c'. cbn. rewrite lookup_insert.
  destruct (decide (name = name')) as [<- | _]; [intros _; exact Hname|].
  apply Hwf.
Qed.

Lemma wf_create name acc s : wf s -> wf (snd (mem_create name acc s)).
Proof.
  intros Hwf. unfold mem_create.
  destruct (online s); [|exact Hwf].
  destruct (valid_name name) eqn:Hname; [|exact Hwf].
  destruct (containers s !! name); [exact Hwf|].
  apply wf_insert; assumption.
Qed.

Lemma wf_createIfNotExists name acc s :
  wf s -> wf (snd (mem_createIfNotExists name acc s)).
Proof.
  intros Hwf. unfold mem_createIfNotExists.
  destruct (online s); [|exact Hwf].
  destruct (valid_name name) eqn:Hname; [|exact Hwf].
  destruct (containers s !! name); [exact Hwf|].
  apply wf_insert; assumption.
Qed.

Lemma wf_uploadData name blob buf ctype md s :
  wf s -> wf (snd (mem_uploadData name blob buf ctype md s)).
Proof.
  intros Hwf. unfold mem_uploadData.
  destruct (online s); [|exact Hwf].
  destruct (containers s !! name) as [c|] eqn:Hc; [|exact Hwf].
  apply wf_insert; [assumption | exact (Hwf name c Hc)].
Qed.

Lemma wf_delete name blob s : wf s -> wf (snd (mem_delete name blob s)).
Proof.
  intros Hwf. unfold mem_delete.
  destruct (online s); [|exact Hwf].
  destruct (containers s !! name) as [c|] eqn:Hc; [|exact Hwf].
  destruct (blobs c !! blob); [|exact Hwf].
  apply wf_insert; [assumption | exact (Hwf name c Hc)].
Qed.

End MemFacts.

(** C7.  Against a reachable service, a configured process asked to create
    a container whose name is already in use sends the create call, answers
    409 with [Container already exists], and leaves the whole storage state,
    the existing container and its blobs included, as it was. *)
Theorem post_containers_duplicate (w : World Mem.State) (name : string)
    (c : Mem.Container) :
  Mem.wf (service w) ->
  Mem.online (service w) = true ->
  configured w ->
  Mem.containers (service w) !! name = Some c ->
  exists w',
    post_containers (Some name) w
    = (Ok (res_status_json 409 (error_body "Container already exists")), w')
    /\ service w' = service w
    /\ Mem.containers (service w') !! name = Some c
    /\ calls w' = (calls w ++ [CallCreate name "blob"])%list.
Proof.
  intros Hwf Honline Hcfg Hin.
  pose proof (Hwf name c Hin) as Hvalid.
  assert (create name "blob" (service w) = (Mem.container_exists, service w))
    as Hcreate.
  { cbn. unfold Mem.mem_create. rewrite Honline, Hvalid, Hin. reflexivity. }
  exists (answered w (CallCreate name "blob") (service w)).
  split; [|split; [reflexivity | split; [exact Hin | reflexivity]]].
  exact (post_containers_conflict name w _ (service w)
           (valid_name_guard name Hvalid) Hcfg Hcreate).
Qed.

Lemma post_containers_duplicate_witness :
  exists w',
    post_containers (Some "test-docs") (Mem.world docs_service)
    = (Ok (res_status_json 409 (error_body "Container already exists")), w')
    /\ service w' = docs_service.
Proof.
  destruct (post_containers_duplicate (Mem.world docs_service) "test-docs"
              (Mem.mkContainer "blob" "2024-01-01T00:00:00.000Z" ∅))
    as (w' & Hrun & Hsame & _).
  - intros name c. cbn. rewrite lookup_singleton.
    destruct (decide ("test-docs" = name)) as [<- | _]; [|discriminate].
    intros _. reflexivity.
  - reflexivity.
  - apply world_configured.
  - reflexivity.
  - exists w'. split; assumption.
Defined.

(** ** DELETE /api/containers/:containerName/files/:filename *)

Section DeleteFacts.

Context {S : Type} `{svc : BlobService S}.

(** The handler has two answers: the acknowledgement when both calls
    return, 500 when anything throws. *)
Lemma delete_file_run containerName filename (w : World S) :
  delete_file containerName filename w
  = match getContainerClient containerName w with
    | (Ok containerClient, w1) =>
        match sdk (CallDelete containerClient filename)
                  (delete_blob containerClient filename) w1 with
        | (Ok _, w2) =>
            (Ok (res_json (JObj [("message", JStr "File deleted successfully")])),
             w2)
        | (Throw _, w2) =>
            (Ok (res_status_json 500 (error_body "Failed to delete file")), w2)
        end
    | (Throw _, w1) =>
        (Ok (res_status_json 500 (error_body "Failed to delete file")), w1)
    end.
Proof.
  unfold delete_file, try_catch, bind.
  destruct (getContainerClient containerName w) as [[cc|e] w1]; [|reflexivity].
  destruct (sdk _ _ w1) as [[[]|e] w2]; reflexivity.
Qed.

Lemma delete_file_unconfigured containerName filename (w : World S) :
  ~ configured w ->
  fst (delete_file containerName filename w)
  = Ok (res_status_json 500 (error_body "Failed to delete file")).
Proof.
  intros Hcfg. rewrite delete_file_run. unfold getContainerClient, bind.
  pose proof (getBlobServiceClient_world w) as Hw.
  destruct (getBlobServiceClient w) as [[[]|e] w0] eqn:Hrun; [|reflexivity].
  cbn in Hw. subst w0. destruct Hcfg. revert Hrun.
  unfold getBlobServiceClient, configured.
  destruct (env_connectionString w) as [cs|]; [|discriminate].
  destruct (JsString.falsy cs) eqn:Hf; [discriminate|].
  intros [= Hparse]. exists cs. repeat split; [|assumption].
  intros ->. discriminate.
Qed.

Lemma delete_file_refused containerName filename (w : World S) e s1 :
  configured w ->
  createIfNotExists containerName "blob" (service w) = (Throw e, s1) ->
  fst (delete_file containerName filename w)
  = Ok (res_status_json 500 (error_body "Failed to delete file")).
Proof.
  intros Hcfg Hcreate. rewrite delete_file_run.
  rewrite (getContainerClient_refused containerName w e s1 Hcfg Hcreate).
  reflexivity.
Qed.

(** Whatever the service throws at the delete call, the answer is 500. *)
Lemma delete_file_throw containerName filename (w : World S) s1 e s2 :
  configured w ->
  createIfNotExists containerName "blob" (service w) = (Ok tt, s1) ->
  delete_blob containerName filename s1 = (Throw e, s2) ->
  fst (delete_file containerName filename w)
  = Ok (res_status_json 500 (error_body "Failed to delete file")).
Proof.
  intros Hcfg Hcreate Hdelete. rewrite delete_file_run.
  rewrite (getContainerClient_created containerName w s1 Hcfg Hcreate).
  rewrite (sdk_answer _ _
             (answered w (CallCreateIfNotExists containerName "blob") s1)
             _ _ Hdelete).
  reflexivity.
Qed.

End DeleteFacts.

(** What create-if-absent does to the in-memory service: it throws and
    changes nothing, or it returns and the container is there, as it was or
    new and empty. *)
Lemma mem_createIfNotExists_cases name acc s :
  (exists e, Mem.mem_createIfNotExists name acc s = (Throw e, s)) \/
  (exists s1 c,
      Mem.mem_createIfNotExists name acc s = (Ok tt, s1) /\
      Mem.online s1 = true /\
      Mem.containers s1 !! name = Some c /\
      (Mem.containers s !! name = Some c \/
       Mem.containers s !! name = None /\
       c = Mem.mkContainer acc (Mem.today s) ∅)).
Proof.
  unfold Mem.mem_createIfNotExists.
  destruct (Mem.online s) eqn:Honline; [|left; eexists; reflexivity].
  destruct (Mem.valid_name name); [|left; eexists; reflexivity].
  destruct (Mem.containers s !! name) as [c|] eqn:Hc; right.
  - exists s, c. auto.
  - eexists _, _. split; [reflexivity|]. split; [exact Honline|].
    split; [apply lookup_insert_eq|]. right. auto.
Qed.

(** C4, as the code has it.  A delete request naming a blob the container
    does not hold is answered 500 with [Failed to delete file], whatever else
    is the case; it is never acknowledged as a success. *)
Theorem delete_file_missing_blob (w : World Mem.State)
    (containerName filename : string) :
  (forall c, Mem.containers (service w) !! containerName = Some c ->
             Mem.blobs c !! filename = None) ->
  fst (delete_file containerName filename w)
  = Ok (res_status_json 500 (error_body "Failed to delete file")).
Proof.
  intros Hmissing.
  destruct (configured_dec w) as [Hcfg | Hcfg];
    [|apply delete_file_unconfigured, Hcfg].
  destruct (mem_createIfNotExists_cases containerName "blob" (service w))
    as [[e Hthrow] | (s1 & c & Hcreate & Honline & Hc & Hwas)].
  - apply (delete_file_refused containerName filename w e (service w) Hcfg).
    exact Hthrow.
  - apply (delete_file_throw containerName filename w s1
             (RestError (Some 404%N) "BlobNotFound") s1 Hcfg Hcreate).
    cbn. unfold Mem.mem_delete. rewrite Honline, Hc.
    destruct Hwas as [Hwas | [_ ->]].
    + rewrite (Hmissing c Hwas). reflexivity.
    + cbn [Mem.blobs]. rewrite lookup_empty. reflexivity.
Qed.

Lemma delete_file_missing_blob_witness :
  fst (delete_file "test-docs" "missing.txt" (Mem.world docs_service))
  = Ok (res_status_json 500 (error_body "Failed to delete file")).
Proof.
  apply delete_file_missing_blob.
  intros c. cbn. rewrite lookup_singleton_eq. intros [= <-]. reflexivity.
Defined.

(** C4 fails as stated: deleting [missing.txt] from the empty container
    [test-docs] is answered 500, not 404. *)
Lemma delete_file_missing_blob_not_404 :
  Mem.containers docs_service !! "test-docs"
  = Some (Mem.mkContainer "blob" "2024-01-01T00:00:00.000Z" ∅) /\
  fst (delete_file "test-docs" "missing.txt" (Mem.world docs_service))
  = Ok (mkResponse 500 (JObj [("error", JStr "Failed to delete file")])).
Proof. split; reflexivity. Qed.

(** ** GET /api/containers/:containerName/files *)

Section ListFacts.

Context {S : Type} `{svc : BlobService S}.

Lemma get_files_run containerName (w : World S) :
  get_files containerName w
  = match getContainerClient containerName w with
    | (Ok containerClient, w1) =>
        match sdk (CallListBlobsFlat containerClient true)
                  (listBlobsFlat containerClient true) w1 with
        | (Ok blobs, w2) =>
            (Ok (res_json (JArr (file_json containerClient <$> blobs))), w2)
        | (Throw _, w2) =>
            (Ok (res_status_json 500 (error_body "Failed to fetch files")), w2)
        end
    | (Throw _, w1) =>
        (Ok (res_status_json 500 (error_body "Failed to fetch files")), w1)
    end.
Proof.
  unfold get_files, try_catch, bind.
  destruct (getContainerClient containerName w) as [[cc|e] w1]; [|reflexivity].
  destruct (sdk _ _ w1) as [[blobs|e] w2]; reflexivity.
Qed.

Lemma get_files_listed containerName (w : World S) s1 blobs s2 :
  configured w ->
  createIfNotExists containerName "blob" (service w) = (Ok tt, s1) ->
  listBlobsFlat containerName true s1 = (Ok blobs, s2) ->
  get_files containerName w
  = (Ok (res_json (JArr (file_json containerName <$> blobs))),
     answered (answered w (CallCreateIfNotExists containerName "blob") s1)
              (CallListBlobsFlat containerName true) s2).
Proof.
  intros Hcfg Hcreate Hlist. rewrite get_files_run.
  rewrite (getContainerClient_created containerName w s1 Hcfg Hcreate).
  rewrite (sdk_answer _ _
             (answered w (CallCreateIfNotExists containerName "blob") s1)
             _ _ Hlist).
  reflexivity.
Qed.

(** The [originalName] of an entry: the tag when there is one and it is not
    empty, the blob's name otherwise. *)
Lemma file_json_originalName containerClient blob :
  (forall tag, metadata_originalName blob = Some tag -> tag <> "" ->
               json_field "originalName" (file_json containerClient blob)
               = Some (JStr tag)) /\
  (metadata_originalName blob = None \/ metadata_originalName blob = Some "" ->
   json_field "originalName" (file_json containerClient blob)
   = Some (JStr (blob_name blob))).
Proof.
  cbn. unfold or_else. split.
  - intros tag -> Hne. destruct tag; [contradiction | reflexivity].
  - intros [-> | ->]; reflexivity.
Qed.

End ListFacts.

(** C8, as the code has it.  When the listing succeeds, the answer is 200
    with one entry per listed blob, in order.  Each entry has the fields
    [name], [originalName], [lastModified], [size], [contentType], [url];
    its [originalName] is the blob's [originalName] tag when the tag is
    present and not empty, and the blob's generated name when the metadata or
    the tag is absent or the tag is empty. *)
Theorem get_files_entries {S : Type} `{svc : BlobService S}
    (containerName : string) (w : World S) (s1 s2 : S)
    (blobs : list BlobItem) :
  configured w ->
  createIfNotExists containerName "blob" (service w) = (Ok tt, s1) ->
  listBlobsFlat containerName true s1 = (Ok blobs, s2) ->
  exists entries w',
    get_files containerName w = (Ok (res_json (JArr entries)), w') /\
    Forall2 (entry_for containerName) blobs entries.
Proof.
  intros Hcfg Hcreate Hlist.
  eexists _, _. split; [apply (get_files_listed _ _ _ _ _ Hcfg Hcreate Hlist)|].
  apply Forall2_fmap_r, Forall_Forall2_diag, Forall_forall.
  intros blob _.
  destruct (file_json_originalName containerName blob) as [Htag Hnone].
  unfold entry_for. repeat split; try reflexivity; assumption.
Qed.

Lemma get_files_entries_witness :
  exists entries w',
    get_files "test-docs" (Mem.world stocked_service)
    = (Ok (res_json (JArr entries)), w') /\
    Forall2 (entry_for "test-docs") stocked_listing entries.
Proof.
  apply (get_files_entries "test-docs" (Mem.world stocked_service)
           stocked_service stocked_service stocked_listing).
  - apply world_configured.
  - reflexivity.
  - reflexivity.
Defined.

(** C8 fails as stated: a blob whose [originalName] tag is present and
    empty is listed under its generated name, not under its tag. *)
Lemma file_json_empty_tag :
  metadata_originalName untitled_blob = Some "" /\
  json_field "originalName"
    (file_json (svc := Mem.MemService) "test-docs" untitled_blob)
  = Some (JStr "uuid0-report.pdf").
Proof. split; reflexivity. Qed.

(** ** GET /api/health *)

(** C9.  The health check returns, in every world and over every storage
    service: the answer is 200 with [status] and [timestamp], and the world is
    left as it was, so nothing was sent to the storage service. *)
Theorem get_health_never_fails {S : Type} `{svc : BlobService S}
    (w : World S) :
  get_health w
  = (Ok (res_json (JObj [("status", JStr "OK"); ("timestamp", JStr (now w))])),
     w).
Proof. reflexivity. Qed.

(** ** Containers made on demand *)

(** C10, as the code has it.  Against a reachable service, a configured
    process asked to list the files of, or to delete a blob from, a container
    the service does not hold, under a name the service accepts, first sends
    create-if-absent with blob access.  The listing is answered 200 with the
    empty sequence, the delete 500 (there is no such blob); after either, the
    service holds the container, empty and with blob access. *)
Theorem missing_container_created (w : World Mem.State)
    (containerName filename : string) :
  Mem.online (service w) = true ->
  configured w ->
  Mem.valid_name containerName = true ->
  Mem.containers (service w) !! containerName = None ->
  let made := Mem.mkContainer "blob" (Mem.today (service w)) ∅ in
  (exists w',
      get_files containerName w = (Ok (res_json (JArr [])), w') /\
      Mem.containers (service w') !! containerName = Some made /\
      calls w' = (calls w ++ [CallCreateIfNotExists containerName "blob";
                              CallListBlobsFlat containerName true])%list) /\
  (exists w',
      delete_file containerName filename w
      = (Ok (res_status_json 500 (error_body "Failed to delete file")), w') /\
      Mem.containers (service w') !! containerName = Some made /\
      calls w' = (calls w ++ [CallCreateIfNotExists containerName "blob";
                              CallDelete containerName filename])%list).
Proof.
  intros Honline Hcfg Hvalid Habsent made.
  set (s1 := Mem.with_containers (service w)
               (<[containerName := made]> (Mem.containers (service w)))).
  assert (createIfNotExists containerName "blob" (service w) = (Ok tt, s1))
    as Hcreate.
  { cbn. unfold Mem.mem_createIfNotExists.
    rewrite Honline, Hvalid, Habsent. reflexivity. }
  assert (Mem.containers s1 !! containerName = Some made) as Hmade
    by apply lookup_insert_eq.
  split.
  - assert (listBlobsFlat containerName true s1 = (Ok [], s1)) as Hlist.
    { cbn. unfold Mem.mem_listBlobsFlat. rewrite Hmade.
      cbn [Mem.online Mem.with_containers s1]. rewrite Honline.
      cbn [Mem.blobs made]. rewrite map_to_list_empty. reflexivity. }
    eexists. split; [apply (get_files_listed _ _ _ _ _ Hcfg Hcreate Hlist)|].
    split; [exact Hmade|]. cbn. rewrite <- app_assoc. reflexivity.
  - assert (delete_blob containerName filename s1 = (Mem.blob_missing, s1))
      as Hdelete.
    { cbn. unfold Mem.mem_delete. rewrite Hmade.
      cbn [Mem.online Mem.with_containers s1]. rewrite Honline.
      cbn [Mem.blobs made]. rewrite lookup_empty. reflexivity. }
    eexists. split.
    + rewrite delete_file_run.
      rewrite (getContainerClient_created containerName w s1 Hcfg Hcreate).
      rewrite (sdk_answer _ _
                 (answered w (CallCreateIfNotExists containerName "blob") s1)
                 _ _ Hdelete).
      reflexivity.
    + split; [exact Hmade|]. cbn. rewrite <- app_assoc. reflexivity.
Qed.

Lemma missing_container_created_witness :
  (exists w',
      get_files "test-docs" (Mem.world Mem.empty_service)
      = (Ok (res_json (JArr [])), w') /\
      Mem.containers (service w') !! "test-docs"
      = Some (Mem.mkContainer "blob" "2024-01-01T00:00:00.000Z" ∅)) /\
  (exists w',
      delete_file "test-docs" "missing.txt" (Mem.world Mem.empty_service)
      = (Ok (res_status_json 500 (error_body "Failed to delete file")), w') /\
      Mem.containers (service w') !! "test-docs"
      = Some (Mem.mkContainer "blob" "2024-01-01T00:00:00.000Z" ∅)).
Proof.
  destruct (missing_container_created (Mem.world Mem.empty_service)
              "test-docs" "missing.txt")
    as [(w1 & Hlist & Hmade1 & _) (w2 & Hdel & Hmade2 & _)].
  - reflexivity.
  - apply world_configured.
  - reflexivity.
  - reflexivity.
  - split; [exists w1 | exists w2]; split; assumption.
Defined.

(** C10 fails as stated: for the absent container [AB], whose name the
    service does not accept, create-if-absent is refused; the listing and the
    delete are both answered 500 and the container does not exist
    afterwards. *)
Lemma missing_container_refused_name :
  Mem.online docs_service = true /\
  configured (Mem.world docs_service) /\
  Mem.containers docs_service !! "AB" = None /\
  (exists w',
      get_files "AB" (Mem.world docs_service)
      = (Ok (res_status_json 500 (error_body "Failed to fetch files")), w') /\
      calls w' = [CallCreateIfNotExists "AB" "blob"] /\
      Mem.containers (service w') !! "AB" = None) /\
  (exists w',
      delete_file "AB" "missing.txt" (Mem.world docs_service)
      = (Ok (res_status_json 500 (error_body "Failed to delete file")), w') /\
      calls w' = [CallCreateIfNotExists "AB" "blob"] /\
      Mem.containers (service w') !! "AB" = None).
Proof.
  split; [reflexivity|]. split.
  { exists "UseDevelopmentStorage=true". repeat split. discriminate. }
  split; [reflexivity|].
  split; eexists; repeat split.
Qed.

(** The round trip of the specification: store [report.pdf] in [test-docs],
    list it, delete it, list again. *)
Example round_trip :
  let w0 := Mem.world docs_service in
  let w1 := snd (post_upload "test-docs" (Some report_pdf) w0) in
  let w2 := snd (delete_file "test-docs" "uuid0-report.pdf" w1) in
  (json_field "originalName" <$>
     match fst (get_files "test-docs" w1) with
     | Ok (mkResponse 200 (JArr entries)) => entries
     | _ => []
     end) = [Some (JStr "report.pdf")] /\
  fst (delete_file "test-docs" "uuid0-report.pdf" w1)
  = Ok (res_json (JObj [("message", JStr "File deleted successfully")])) /\
  fst (get_files "test-docs" w2) = Ok (res_json (JArr [])).
Proof. vm_compute. repeat split. Qed.

(** * Further properties of the server *)

Section RouteFacts.

Context {S : Type} `{svc : BlobService S}.

(** The adapter, case by case. *)
Lemma getContainerClient_run containerName (w : World S) :
  getContainerClient containerName w
  = match getBlobServiceClient w with
    | (Ok _, _) =>
        match createIfNotExists containerName "blob" (service w) with
        | (Ok _, s1) =>
            (Ok containerName,
             answered w (CallCreateIfNotExists containerName "blob") s1)
        | (Throw e, s1) =>
            (Throw e, answered w (CallCreateIfNotExists containerName "blob") s1)
        end
    | (Throw e, _) => (Throw e, w)
    end.
Proof.
  unfold getContainerClient, bind.
  pose proof (getBlobServiceClient_world w) as Hw.
  destruct (getBlobServiceClient w) as [[[]|e] w0]; cbn in Hw; subst w0;
    [|reflexivity].
  unfold sdk.
  destruct (createIfNotExists containerName "blob" (service w))
    as [[[]|e] s1]; reflexivity.
Qed.

Lemma upload_handler_run containerName f (w : World S) :
  let uniqueFilename :=
    uuid_source w (uuid_drawn w) +:+ "-" +:+ originalname f in
  let metadata :=
    [("originalName", originalname f);
     ("uploadDate", now w);
     ("fileSize", JsString.toString (size f))] in
  upload_handler containerName (Some f) w
  = match getContainerClient containerName (drawn w) with
    | (Ok containerClient, w1) =>
        match sdk (CallUploadData containerClient uniqueFilename (buffer f)
                     (mimetype f) metadata)
                  (uploadData containerClient uniqueFilename (buffer f)
                     (mimetype f) metadata) w1 with
        | (Ok _, w2) =>
            (Ok (res_json
                   (JObj [("message", JStr "File uploaded successfully");
                          ("filename", JStr uniqueFilename);
                          ("originalName", JStr (originalname f));
                          ("url", JStr (blobUrl containerClient uniqueFilename));
                          ("size", JNum (size f));
                          ("container", JStr containerName)])), w2)
        | (Throw _, w2) =>
            (Ok (res_status_json 500 (error_body "Failed to upload file")), w2)
        end
    | (Throw _, w1) =>
        (Ok (res_status_json 500 (error_body "Failed to upload file")), w1)
    end.
Proof.
  intros uniqueFilename metadata.
  unfold upload_handler, try_catch, bind, uuidv4, new_Date_toISOString.
  rewrite getContainerClient_run.
  pose proof (getBlobServiceClient_world (drawn w)) as Hw.
  destruct (getBlobServiceClient (drawn w)) as [[[]|e] w0]; cbn in Hw; subst w0;
    [|reflexivity].
  destruct (createIfNotExists containerName "blob" (service (drawn w)))
    as [[[]|e] s1]; [|reflexivity].
  cbn [now answered drawn].
  destruct (sdk _ _ _) as [[[]|e] w2]; reflexivity.
Qed.

Lemma get_containers_run (w : World S) :
  get_containers w
  = match getBlobServiceClient w with
    | (Ok _, _) =>
        match listContainers (service w) with
        | (Ok containers, s1) =>
            (Ok (res_json (JArr (container_json <$> containers))),
             answered w CallListContainers s1)
        | (Throw _, s1) =>
            (Ok (res_status_json 500 (error_body "Failed to fetch containers")),
             answered w CallListContainers s1)
        end
    | (Throw _, _) =>
        (Ok (res_status_json 500 (error_body "Failed to fetch containers")), w)
    end.
Proof.
  unfold get_containers, try_catch, bind.
  pose proof (getBlobServiceClient_world w) as Hw.
  destruct (getBlobServiceClient w) as [[[]|e] w0]; cbn in Hw; subst w0;
    [|reflexivity].
  unfold sdk. destruct (listContainers (service w)) as [[cs|e] s1]; reflexivity.
Qed.

Lemma post_containers_run name (w : World S) :
  JsString.falsy name || negb (re_name_test name) = false ->
  post_containers (Some name) w
  = match getBlobServiceClient w with
    | (Ok _, _) =>
        match create name "blob" (service w) with
        | (Ok _, s1) =>
            (Ok (res_json
                   (JObj [("message", JStr "Container created successfully");
                          ("name", JStr name)])),
             answered w (CallCreate name "blob") s1)
        | (Throw e, s1) =>
            (Ok (if decide (statusCode_of e = Some 409%N)
                 then res_status_json 409 (error_body "Container already exists")
                 else res_status_json 500
                        (error_body "Failed to create container")),
             answered w (CallCreate name "blob") s1)
        end
    | (Throw e, _) =>
        (Ok (if decide (statusCode_of e = Some 409%N)
             then res_status_json 409 (error_body "Container already exists")
             else res_status_json 500 (error_body "Failed to create container")),
         w)
    end.
Proof.
  intros Hguard. unfold post_containers, try_catch, bind. rewrite Hguard.
  pose proof (getBlobServiceClient_world w) as Hw.
  destruct (getBlobServiceClient w) as [[[]|e] w0]; cbn in Hw; subst w0.
  - unfold sdk. destruct (create name "blob" (service w)) as [[[]|e] s1];
      [reflexivity|]. destruct (decide _); reflexivity.
  - destruct (decide _); reflexivity.
Qed.


End RouteFacts.

Ltac answer := solve [eexists _, _; split; [reflexivity | cbn; auto 10]].

(** X1.  Every route answers, whatever the storage service does and
    whatever the request: no exception leaves a handler.  The status is 200
    or 500 for the listings and the delete, 200, 400, 409 or 500 for the
    creation, 200, 400 or 500 for the upload, 200 for the health check; no
    route ever answers 404. *)
Theorem routes_always_answer {S : Type} `{svc : BlobService S}
    (w : World S) (name : option string) (containerName filename : string)
    (part : option FilePart) :
  answers (get_containers w) [200; 500]%N /\
  answers (post_containers name w) [200; 400; 409; 500]%N /\
  answers (post_upload containerName part w) [200; 400; 500]%N /\
  answers (get_files containerName w) [200; 500]%N /\
  answers (delete_file containerName filename w) [200; 500]%N /\
  answers (get_health w) [200]%N.
Proof.
  repeat split.
  - rewrite get_containers_run.
    destruct (getBlobServiceClient w) as [[[]|e] w0]; [|answer].
    destruct (listContainers (service w)) as [[cs|e] s1]; answer.
  - destruct name as [n|]; [|answer].
    destruct (JsString.falsy n || negb (re_name_test n)) eqn:Hguard.
    { unfold post_containers, try_catch. rewrite Hguard. answer. }
    rewrite (post_containers_run n w Hguard).
    destruct (getBlobServiceClient w) as [[[]|e] w0].
    + destruct (create n "blob" (service w)) as [[[]|e] s1]; [answer|].
      destruct (decide _); answer.
    + destruct (decide _); answer.
  - unfold post_upload.
    destruct (multer_single upload part) as [[f|]|e] eqn:Hmulter.
    + rewrite upload_handler_run.
      destruct (getContainerClient containerName (drawn w)) as [[cc|e] w1];
        [|answer].
      destruct (sdk _ _ w1) as [[[]|e] w2]; answer.
    + answer.
    + destruct e as [msg|code|sc msg]; try answer.
      unfold ret, error_middleware.
      destruct (String.eqb code "LIMIT_FILE_SIZE"); answer.
  - rewrite get_files_run.
    destruct (getContainerClient containerName w) as [[cc|e] w1]; [|answer].
    destruct (sdk _ _ w1) as [[blobs|e] w2]; answer.
  - rewrite delete_file_run.
    destruct (getContainerClient containerName w) as [[cc|e] w1]; [|answer].
    destruct (sdk _ _ w1) as [[[]|e] w2]; answer.
  - answer.
Qed.

(** X2.  What a route sends to the storage service.  The health check sends
    nothing.  Listing the containers sends at most the one listing request,
    the creation at most the one create request for the name it was given.
    The three blob routes send create-if-absent (blob access) for their
    container before anything else, then at most one more request, the
    listing, the delete or the upload of that container; when nothing is
    sent the state of the service is the same. *)
Theorem routes_call_discipline {S : Type} `{svc : BlobService S}
    (w : World S) (name : option string) (containerName filename : string)
    (part : option FilePart) :
  untouched w (snd (get_health w)) /\
  (untouched w (snd (get_containers w)) \/
   sent w (snd (get_containers w)) [CallListContainers]) /\
  (untouched w (snd (post_containers name w)) \/
   exists n, name = Some n /\
             sent w (snd (post_containers name w)) [CallCreate n "blob"]) /\
  (untouched w (snd (get_files containerName w)) \/
   sent w (snd (get_files containerName w))
        [CallCreateIfNotExists containerName "blob"] \/
   sent w (snd (get_files containerName w))
        [CallCreateIfNotExists containerName "blob";
         CallListBlobsFlat containerName true]) /\
  (untouched w (snd (delete_file containerName filename w)) \/
   sent w (snd (delete_file containerName filename w))
        [CallCreateIfNotExists containerName "blob"] \/
   sent w (snd (delete_file containerName filename w))
        [CallCreateIfNotExists containerName "blob";
         CallDelete containerName filename]) /\
  (untouched w (snd (post_upload containerName part w)) \/
   sent w (snd (post_upload containerName part w))
        [CallCreateIfNotExists containerName "blob"] \/
   exists p,
     part = Some p /\
     sent w (snd (post_upload containerName part w))
          [CallCreateIfNotExists containerName "blob";
           CallUploadData containerName
             (uuid_source w (uuid_drawn w) +:+ "-" +:+ part_originalname p)
             (part_data p) (part_mimetype p)
             [("originalName", part_originalname p);
              ("uploadDate", now w);
              ("fileSize", JsString.toString (byteLength (part_data p)))]]).
Proof.
  assert (forall w' : World S, w' = w -> untouched w w') as Hsame
    by (intros w' ->; split; reflexivity).
  assert (forall (w0 w' : World S) c1 c2 s1 s2,
             w' = answered (answered w0 c1 s1) c2 s2 ->
             calls w0 = calls w -> sent w w' [c1; c2]) as Htwo.
  { intros w0 w' c1 c2 s1 s2 -> Hc. unfold sent. cbn.
    rewrite Hc, <- app_assoc. reflexivity. }
  assert (forall (w0 w' : World S) c1 s1,
             w' = answered w0 c1 s1 ->
             calls w0 = calls w -> sent w w' [c1]) as Hone.
  { intros w0 w' c1 s1 -> Hc. unfold sent. cbn. rewrite Hc. reflexivity. }
  repeat split.
  - rewrite get_containers_run.
    destruct (getBlobServiceClient w) as [[[]|e] w0];
      [|left; apply Hsame; reflexivity].
    right. destruct (listContainers (service w)) as [[cs|e] s1];
      eapply Hone; reflexivity.
  - destruct name as [n|]; [|left; apply Hsame; reflexivity].
    destruct (JsString.falsy n || negb (re_name_test n)) eqn:Hguard.
    { left. unfold post_containers, try_catch. rewrite Hguard.
      apply Hsame. reflexivity. }
    rewrite (post_containers_run n w Hguard).
    destruct (getBlobServiceClient w) as [[[]|e] w0];
      [|left; apply Hsame; reflexivity].
    right. exists n. split; [reflexivity|].
    destruct (create n "blob" (service w)) as [[[]|e] s1];
      eapply Hone; reflexivity.
  - rewrite get_files_run, getContainerClient_run.
    destruct (getBlobServiceClient w) as [[[]|e] w0];
      [|left; apply Hsame; reflexivity].
    right.
    destruct (createIfNotExists containerName "blob" (service w))
      as [[[]|e] s1]; [|left; eapply Hone; reflexivity].
    right. unfold sdk. cbn [service answered].
    destruct (listBlobsFlat containerName true s1) as [[blobs|e] s2];
      eapply Htwo; reflexivity.
  - rewrite delete_file_run, getContainerClient_run.
    destruct (getBlobServiceClient w) as [[[]|e] w0];
      [|left; apply Hsame; reflexivity].
    right.
    destruct (createIfNotExists containerName "blob" (service w))
      as [[[]|e] s1]; [|left; eapply Hone; reflexivity].
    right. unfold sdk. cbn [service answered].
    destruct (delete_blob containerName filename s1) as [[[]|e] s2];
      eapply Htwo; reflexivity.
  - unfold post_upload.
    destruct part as [p|]; [|left; apply Hsame; reflexivity].
    destruct (multer_single upload (Some p)) as [[f|]|e] eqn:Hmulter;
      [| left; apply Hsame; reflexivity | left; apply Hsame; reflexivity].
    assert (f = mkMulterFile (part_originalname p) (part_data p)
                  (part_mimetype p) (byteLength (part_data p))) as ->.
    { revert Hmulter. unfold multer_single.
      destruct (fileFilter upload p) as [[e|] []]; try discriminate.
      destruct (_ <? _)%N; [discriminate|]. intros [= <-]. reflexivity. }
    rewrite upload_handler_run, getContainerClient_run.
    cbn [originalname buffer mimetype size].
    pose proof (getBlobServiceClient_world (drawn w)) as Hw.
    destruct (getBlobServiceClient (drawn w)) as [[[]|e] w0];
      cbn in Hw; subst w0; [|left; split; reflexivity].
    right. cbn [service drawn].
    destruct (createIfNotExists containerName "blob" (service w))
      as [[[]|e] s1]; [|left; eapply Hone; reflexivity].
    right. exists p. split; [reflexivity|].
    unfold sdk. cbn [service answered].
    destruct (uploadData _ _ _ _ _ s1) as [[[]|e] s2];
      eapply Htwo; reflexivity.
Qed.



(** X4.  Listing the containers: when the service returns its containers,
    the answer is 200 with one entry per container, in the service's order,
    each holding exactly [name] and [lastModified]; when the service throws,
    the answer is 500 with [Failed to fetch containers]. *)
Theorem get_containers_entries {S : Type} `{svc : BlobService S}
    (w : World S) (s1 : S) :
  configured w ->
  (forall containers,
      listContainers (service w) = (Ok containers, s1) ->
      exists entries,
        get_containers w
        = (Ok (res_json (JArr entries)), answered w CallListContainers s1) /\
        Forall2
          (fun c entry =>
             json_keys entry = ["name"; "lastModified"] /\
             json_field "name" entry = Some (JStr (container_name c)) /\
             json_field "lastModified" entry
             = Some (JStr (container_lastModified c)))
          containers entries) /\
  (forall e,
      listContainers (service w) = (Throw e, s1) ->
      get_containers w
      = (Ok (res_status_json 500 (error_body "Failed to fetch containers")),
         answered w CallListContainers s1)).
Proof.
  intros Hcfg. split.
  - intros containers Hlist. eexists. split.
    + rewrite get_containers_run, (getBlobServiceClient_configured w Hcfg), Hlist.
      reflexivity.
    + apply Forall2_fmap_r, Forall_Forall2_diag, Forall_forall.
      intros c _. repeat split.
  - intros e Hlist.
    rewrite get_containers_run, (getBlobServiceClient_configured w Hcfg), Hlist.
    reflexivity.
Qed.

Lemma get_containers_entries_witness :
  exists entries,
    get_containers (Mem.world docs_service)
    = (Ok (res_json (JArr entries)),
       answered (Mem.world docs_service) CallListContainers docs_service) /\
    Forall2
      (fun c entry =>
         json_keys entry = ["name"; "lastModified"] /\
         json_field "name" entry = Some (JStr (container_name c)) /\
         json_field "lastModified" entry
         = Some (JStr (container_lastModified c)))
      [mkContainerItem "test-docs" "2024-01-01T00:00:00.000Z"] entries.
Proof.
  apply (proj1 (get_containers_entries (Mem.world docs_service) docs_service
                  (world_configured docs_service))).
  reflexivity.
Defined.

(** X5.  The creation follows the answer of the create call.  For a name
    that passes the guard, in a configured process: when the call returns,
    the answer is 200 with the message and the name; when it throws anything
    but a status 409 (a name the service turns down, a service that cannot be
    reached), the answer is 500 with [Failed to create container].  Either
    way the create call is the only request sent. *)
Theorem post_containers_outcomes {S : Type} `{svc : BlobService S}
    (n : string) (w : World S) (s1 : S) :
  ~ NameRules.is_empty n -> ~ NameRules.bad_charset n ->
  configured w ->
  (create n "blob" (service w) = (Ok tt, s1) ->
   post_containers (Some n) w
   = (Ok (res_json (JObj [("message", JStr "Container created successfully");
                          ("name", JStr n)])),
      answered w (CallCreate n "blob") s1)) /\
  (forall e,
      create n "blob" (service w) = (Throw e, s1) ->
      statusCode_of e <> Some 409%N ->
      post_containers (Some n) w
      = (Ok (res_status_json 500 (error_body "Failed to create container")),
         answered w (CallCreate n "blob") s1)).
Proof.
  intros Hne Hcs Hcfg.
  assert (JsString.falsy n || negb (re_name_test n) = false) as Hguard.
  { apply not_true_iff_false. rewrite guard_test. tauto. }
  split.
  - intros Hcreate.
    rewrite (post_containers_run n w Hguard),
      (getBlobServiceClient_configured w Hcfg), Hcreate. reflexivity.
  - intros e Hcreate Hstatus.
    rewrite (post_containers_run n w Hguard),
      (getBlobServiceClient_configured w Hcfg), Hcreate.
    destruct (decide _); [contradiction | reflexivity].
Qed.

Lemma post_containers_outcomes_witness :
  post_containers (Some "new-docs") (Mem.world docs_service)
  = (Ok (res_json (JObj [("message", JStr "Container created successfully");
                         ("name", JStr "new-docs")])),
     answered (Mem.world docs_service) (CallCreate "new-docs" "blob")
       (snd (Mem.mem_create "new-docs" "blob" docs_service))) /\
  post_containers (Some "ab") (Mem.world docs_service)
  = (Ok (res_status_json 500 (error_body "Failed to create container")),
     answered (Mem.world docs_service) (CallCreate "ab" "blob") docs_service).
Proof.
  split.
  - apply (proj1 (post_containers_outcomes "new-docs" (Mem.world docs_service)
                    (snd (Mem.mem_create "new-docs" "blob" docs_service))
                    ltac:(run_rule) ltac:(run_rule)
                    (world_configured docs_service))).
    reflexivity.
  - apply (proj2 (post_containers_outcomes "ab" (Mem.world docs_service)
                    docs_service ltac:(run_rule) ltac:(run_rule)
                    (world_configured docs_service))
             (RestError (Some 400%N) "InvalidResourceName")).
    + reflexivity.
    + discriminate.
Defined.

(** X6.  Where the upload route answers 400, for a request with at most
    one file part, sent in field [file].  A request with no file part is
    answered 400, and so is a file of a listed type longer than 100 MiB.  A
    file part that is answered 400 is of a listed type and at least 100 MiB
    long: a type off the list, and a listed type below 100 MiB, are never
    answered 400.  A 400 leaves the world as it was. *)
Theorem post_upload_bad_request {S : Type} `{svc : BlobService S}
    (containerName : string) (part : option FilePart) (w w' : World S)
    (r : Response) :
  post_upload containerName part w = (Ok r, w') ->
  (part = None -> status r = 400%N) /\
  (forall p,
      part = Some p ->
      array_includes allowedTypes (part_mimetype p) = true ->
      (100 * 1024 * 1024 < byteLength (part_data p))%N ->
      status r = 400%N) /\
  (forall p,
      part = Some p -> status r = 400%N ->
      array_includes allowedTypes (part_mimetype p) = true /\
      (100 * 1024 * 1024 <= byteLength (part_data p))%N) /\
  (status r = 400%N -> w' = w).
Proof.
  intros Hrun. destruct part as [p|].
  2:{ injection Hrun as <- <-.
      split; [reflexivity|]. split; [discriminate|].
      split; [discriminate | reflexivity]. }
  split; [discriminate|].
  destruct (array_includes allowedTypes (part_mimetype p)) eqn:Htype.
  2:{ rewrite (post_upload_type_rejected containerName p w Htype) in Hrun.
      injection Hrun as <- <-.
      split; [intros p' [= <-] H; congruence|].
      split; [intros p' _ H; discriminate H | discriminate]. }
  destruct (N.ltb_spec (100 * 1024 * 1024) (byteLength (part_data p)))
    as [Hbig | Hsmall].
  { unfold post_upload in Hrun.
    rewrite (multer_rejects_size p Htype Hbig) in Hrun.
    injection Hrun as <- <-.
    split; [reflexivity|]. split; [|reflexivity].
    intros p' [= <-] _. split; [exact Htype | lia]. }
  assert (status r <> 400%N) as Hnot.
  { revert Hrun. unfold post_upload. rewrite (multer_accepts p Htype Hsmall).
    rewrite upload_handler_run.
    destruct (getContainerClient containerName (drawn w)) as [[cc|e] w1];
      [|intros [= <- _]; discriminate].
    destruct (sdk _ _ w1) as [[[]|e] w2]; intros [= <- _]; discriminate. }
  split; [intros p' [= <-] _ Hbig; lia|].
  split; [intros p' _ H; contradiction | intros H; contradiction].
Qed.

Lemma post_upload_bad_request_witness :
  array_includes allowedTypes (part_mimetype huge_pdf) = true /\
  (100 * 1024 * 1024 <= byteLength (part_data huge_pdf))%N.
Proof.
  apply (proj1 (proj2 (proj2
           (post_upload_bad_request "test-docs" (Some huge_pdf)
              (Mem.world docs_service) (Mem.world docs_service)
              (res_status_json 400
                 (error_body "File too large. Maximum size is 100MB."))
              eq_refl))) huge_pdf);
    reflexivity.
Defined.



(** * Round trips through the in-memory service *)

Section MemRoundTrips.

Import Mem.



Lemma mem_createIfNotExists_present name acc s c :
  online s = true -> valid_name name = true ->
  containers s !! name = Some c ->
  mem_createIfNotExists name acc s = (Ok tt, s).
Proof.
  intros Honline Hvalid Hc. unfold mem_createIfNotExists.
  rewrite Honline, Hvalid, Hc. reflexivity.
Qed.

(** What the listing of a container holding [bs] answers. *)
Lemma get_files_of_container (w : World State) name c :
  online (service w) = true -> configured w -> valid_name name = true ->
  containers (service w) !! name = Some c ->
  get_files name w
  = (Ok (res_json
           (JArr (file_json name <$>
                    (blob_item true <$> map_to_list (blobs c))))),
     answered (answered w (CallCreateIfNotExists name "blob") (service w))
              (CallListBlobsFlat name true) (service w)).
Proof.
  intros Honline Hcfg Hvalid Hc.
  apply (get_files_listed name w (service w) _ (service w) Hcfg).
  - apply (mem_createIfNotExists_present name "blob" (service w) c);
      assumption.
  - cbn. unfold mem_listBlobsFlat. rewrite Honline, Hc. reflexivity.
Qed.


End MemRoundTrips.



(** X9.  Delete, then list.  Against a reachable in-memory service, in a
    configured process, deleting a blob its container holds is acknowledged
    with 200; the listing of the container afterwards answers 200, has no
    entry of that name, and still has an entry for every other blob the
    container held. *)
Theorem delete_then_list (w : World Mem.State) (containerName filename : string)
    (c : Mem.Container) (b : Mem.Blob) :
  Mem.wf (service w) ->
  Mem.online (service w) = true ->
  configured w ->
  Mem.containers (service w) !! containerName = Some c ->
  Mem.blobs c !! filename = Some b ->
  exists w1 entries w2,
    delete_file containerName filename w
    = (Ok (res_json (JObj [("message", JStr "File deleted successfully")])), w1)
    /\ get_files containerName w1 = (Ok (res_json (JArr entries)), w2)
    /\ (forall entry, entry ∈ entries ->
                      json_field "name" entry <> Some (JStr filename))
    /\ (forall other b',
           other <> filename -> Mem.blobs c !! other = Some b' ->
           exists entry, entry ∈ entries /\
                         json_field "name" entry = Some (JStr other)).
Proof.
  intros Hwf Honline Hcfg Hc Hb.
  pose proof (Hwf containerName c Hc) as Hvalid.
  set (c2 := Mem.mkContainer (Mem.access c) (Mem.created c)
               (delete filename (Mem.blobs c))).
  set (s2 := Mem.with_containers (service w)
               (<[containerName := c2]> (Mem.containers (service w)))).
  set (w1 := answered (answered w (CallCreateIfNotExists containerName "blob")
                         (service w))
               (CallDelete containerName filename) s2).
  assert (delete_file containerName filename w
          = (Ok (res_json (JObj [("message", JStr "File deleted successfully")])),
             w1)) as Hrun.
  { rewrite delete_file_run.
    rewrite (getContainerClient_created containerName w (service w) Hcfg
               (mem_createIfNotExists_present containerName "blob" (service w)
                  c Honline Hvalid Hc)).
    unfold sdk. cbn [service answered delete_blob Mem.MemService].
    unfold Mem.mem_delete. rewrite Honline, Hc, Hb. reflexivity. }
  assert (Mem.containers (service w1) !! containerName = Some c2) as Hc2
    by apply lookup_insert_eq.
  exists w1. eexists _, _. split; [exact Hrun|]. split.
  { apply (get_files_of_container w1 containerName c2); assumption. }
  split.
  - intros entry Hin.
    apply list_elem_of_fmap in Hin as (item & -> & Hin).
    apply list_elem_of_fmap in Hin as ([k v] & -> & Hin).
    apply elem_of_map_to_list in Hin. cbn. intros [= ->].
    cbn in Hin. rewrite lookup_delete_eq in Hin. discriminate.
  - intros other b' Hne Hother.
    exists (file_json containerName (Mem.blob_item true (other, b'))).
    split; [|reflexivity].
    apply list_elem_of_fmap_2, list_elem_of_fmap_2, elem_of_map_to_list.
    cbn. rewrite lookup_delete_ne by congruence. exact Hother.
Qed.

Lemma delete_then_list_witness :
  exists w1 entries w2,
    delete_file "test-docs" "uuid0-report.pdf" (Mem.world stocked_service)
    = (Ok (res_json (JObj [("message", JStr "File deleted successfully")])), w1)
    /\ get_files "test-docs" w1 = (Ok (res_json (JArr entries)), w2)
    /\ (forall entry, entry ∈ entries ->
                      json_field "name" entry
                      <> Some (JStr "uuid0-report.pdf")).
Proof.
  destruct (delete_then_list (Mem.world stocked_service) "test-docs"
              "uuid0-report.pdf"
              (Mem.mkContainer "blob" "2024-01-01T00:00:00.000Z"
                 {[ "uuid0-report.pdf" :=
                      Mem.mkBlob (part_data report_pdf) "application/pdf"
                        (list_to_map
                           [("originalName", "report.pdf");
                            ("uploadDate", "2024-01-01T00:00:00.000Z");
                            ("fileSize", "600")])
                        "2024-01-01T00:00:00.000Z" ]})
              (Mem.mkBlob (part_data report_pdf) "application/pdf"
                 (list_to_map
                    [("originalName", "report.pdf");
                     ("uploadDate", "2024-01-01T00:00:00.000Z");
                     ("fileSize", "600")])
                 "2024-01-01T00:00:00.000Z"))
    as (w1 & entries & w2 & Hrun & Hlist & Hgone & _).
  - apply wf_uploadData. intros name c. cbn. rewrite lookup_singleton.
    destruct (decide ("test-docs" = name)) as [<- | _]; [|discriminate].
    intros _. reflexivity.
  - reflexivity.
  - apply world_configured.
  - reflexivity.
  - reflexivity.
  - exists w1, entries, w2. auto.
Defined.

(** * What a request leaves alone *)

Section MemFrames.

Import Mem.

Lemma others_same_refl name s : others_same name s s.
Proof. intros name' _. reflexivity. Qed.

Lemma others_same_trans name s1 s2 s3 :
  others_same name s1 s2 -> others_same name s2 s3 -> others_same name s1 s3.
Proof. intros H12 H23 name' Hne. rewrite (H23 name' Hne). apply H12, Hne. Qed.

Lemma others_same_insert name s c :
  others_same name s (with_containers s (<[name := c]> (containers s))).
Proof. intros name' Hne. cbn. apply lookup_insert_ne. congruence. Qed.

Lemma frame_create name acc s : others_same name s (snd (mem_create name acc s)).
Proof.
  unfold mem_create. destruct (online s); [|apply others_same_refl].
  destruct (valid_name name); [|apply others_same_refl].
  destruct (containers s !! name); [apply others_same_refl|].
  apply others_same_insert.
Qed.

Lemma frame_createIfNotExists name acc s :
  others_same name s (snd (mem_createIfNotExists name acc s)).
Proof.
  unfold mem_createIfNotExists. destruct (online s); [|apply others_same_refl].
  destruct (valid_name name); [|apply others_same_refl].
  destruct (containers s !! name); [apply others_same_refl|].
  apply others_same_insert.
Qed.

Lemma frame_uploadData name blob buf ctype md s :
  others_same name s (snd (mem_uploadData name blob buf ctype md s)).
Proof.
  unfold mem_uploadData. destruct (online s); [|apply others_same_refl].
  destruct (containers s !! name); [|apply others_same_refl].
  apply others_same_insert.
Qed.

Lemma frame_delete name blob s :
  others_same name s (snd (mem_delete name blob s)).
Proof.
  unfold mem_delete. destruct (online s); [|apply others_same_refl].
  destruct (containers s !! name) as [c|]; [|apply others_same_refl].
  destruct (blobs c !! blob); [|apply others_same_refl].
  apply others_same_insert.
Qed.

Lemma listBlobsFlat_state name incl s : snd (mem_listBlobsFlat name incl s) = s.
Proof.
  unfold mem_listBlobsFlat. destruct (online s); [|reflexivity].
  destruct (containers s !! name); reflexivity.
Qed.

Lemma listContainers_state s : snd (mem_listContainers s) = s.
Proof. unfold mem_listContainers. destruct (online s); reflexivity. Qed.

(** Create-if-absent keeps every container the service holds. *)
Lemma createIfNotExists_keeps name acc s name' c :
  containers s !! name' = Some c ->
  containers (snd (mem_createIfNotExists name acc s)) !! name' = Some c.
Proof.
  intros Hc. unfold mem_createIfNotExists. destruct (online s); [|exact Hc].
  destruct (valid_name name); [|exact Hc].
  destruct (containers s !! name) eqn:Hname; [exact Hc|].
  cbn. rewrite lookup_insert_ne; [exact Hc|]. congruence.
Qed.

End MemFrames.

(** X10.  What a request leaves alone, against the in-memory service.  The
    health check and the container listing leave the service as it is.  The
    file listing changes no container the service holds.  The creation, the
    file listing, the delete and the upload leave every container other than
    the one they name exactly as it was, whatever the outcome. *)
Theorem routes_leave_other_containers (w : World Mem.State)
    (n containerName filename : string) (part : option FilePart) :
  service (snd (get_health w)) = service w /\
  service (snd (get_containers w)) = service w /\
  (forall name' c,
      Mem.containers (service w) !! name' = Some c ->
      Mem.containers (service (snd (get_files containerName w))) !! name'
      = Some c) /\
  others_same n (service w) (service (snd (post_containers (Some n) w))) /\
  others_same containerName (service w)
    (service (snd (get_files containerName w))) /\
  others_same containerName (service w)
    (service (snd (delete_file containerName filename w))) /\
  others_same containerName (service w)
    (service (snd (post_upload containerName part w))).
Proof.
  repeat split.
  - rewrite get_containers_run.
    destruct (getBlobServiceClient w) as [[[]|e] w0]; [|reflexivity].
    pose proof (listContainers_state (service w)) as Hs.
    cbn [listContainers Mem.MemService].
    destruct (Mem.mem_listContainers (service w)) as [[cs|e] s1];
      cbn in Hs; subst s1; reflexivity.
  - intros name' c Hc. rewrite get_files_run, getContainerClient_run.
    destruct (getBlobServiceClient w) as [[[]|e] w0]; [|exact Hc].
    pose proof (createIfNotExists_keeps containerName "blob" (service w)
                  name' c Hc) as H1.
    cbn [createIfNotExists Mem.MemService].
    destruct (Mem.mem_createIfNotExists containerName "blob" (service w))
      as [[[]|e] s1]; cbn [snd] in H1; [|exact H1].
    unfold sdk. cbn [service answered listBlobsFlat Mem.MemService].
    pose proof (listBlobsFlat_state containerName true s1) as H2.
    destruct (Mem.mem_listBlobsFlat containerName true s1) as [[bs|e] s2];
      cbn in H2; subst s2; exact H1.
  - destruct (JsString.falsy n || negb (re_name_test n)) eqn:Hguard.
    { unfold post_containers, try_catch. rewrite Hguard.
      apply others_same_refl. }
    rewrite (post_containers_run n w Hguard).
    destruct (getBlobServiceClient w) as [[[]|e] w0];
      [|apply others_same_refl].
    pose proof (frame_create n "blob" (service w)) as H1.
    cbn [create Mem.MemService].
    destruct (Mem.mem_create n "blob" (service w)) as [[[]|e] s1]; exact H1.
  - rewrite get_files_run, getContainerClient_run.
    destruct (getBlobServiceClient w) as [[[]|e] w0];
      [|apply others_same_refl].
    pose proof (frame_createIfNotExists containerName "blob" (service w)) as H1.
    cbn [createIfNotExists Mem.MemService].
    destruct (Mem.mem_createIfNotExists containerName "blob" (service w))
      as [[[]|e] s1]; cbn [snd] in H1; [|exact H1].
    unfold sdk. cbn [service answered listBlobsFlat Mem.MemService].
    pose proof (listBlobsFlat_state containerName true s1) as H2.
    destruct (Mem.mem_listBlobsFlat containerName true s1) as [[bs|e] s2];
      cbn in H2; subst s2; exact H1.
  - rewrite delete_file_run, getContainerClient_run.
    destruct (getBlobServiceClient w) as [[[]|e] w0];
      [|apply others_same_refl].
    pose proof (frame_createIfNotExists containerName "blob" (service w)) as H1.
    cbn [createIfNotExists Mem.MemService].
    destruct (Mem.mem_createIfNotExists containerName "blob" (service w))
      as [[[]|e] s1]; cbn [snd] in H1; [|exact H1].
    unfold sdk. cbn [service answered delete_blob Mem.MemService].
    pose proof (frame_delete containerName filename s1) as H2.
    destruct (Mem.mem_delete containerName filename s1) as [[[]|e] s2];
      exact (others_same_trans _ _ _ _ H1 H2).
  - unfold post_upload.
    destruct (multer_single upload part) as [[f|]|e];
      [| apply others_same_refl | apply others_same_refl].
    rewrite upload_handler_run, getContainerClient_run.
    pose proof (getBlobServiceClient_world (drawn w)) as Hw.
    destruct (getBlobServiceClient (drawn w)) as [[[]|e] w0];
      cbn in Hw; subst w0; [|apply others_same_refl].
    pose proof (frame_createIfNotExists containerName "blob" (service w)) as H1.
    cbn [createIfNotExists Mem.MemService service drawn].
    destruct (Mem.mem_createIfNotExists containerName "blob" (service w))
      as [[[]|e] s1]; cbn [snd] in H1; [|exact H1].
    unfold sdk. cbn [service answered uploadData Mem.MemService].
    match goal with
    | |- context [Mem.mem_uploadData ?a ?b ?c ?d ?m s1] =>
        pose proof (frame_uploadData a b c d m s1) as H2;
        destruct (Mem.mem_uploadData a b c d m s1) as [[[]|e] s2]
    end; exact (others_same_trans _ _ _ _ H1 H2).
Qed.

Lemma routes_leave_other_containers_witness :
  Mem.containers
    (service (snd (get_files "other" (Mem.world docs_service)))) !! "test-docs"
  = Some (Mem.mkContainer "blob" "2024-01-01T00:00:00.000Z" ∅).
Proof.
  apply (proj1 (proj2 (proj2 (routes_leave_other_containers
                                (Mem.world docs_service) "x" "other" "y"
                                None)))).
  reflexivity.
Defined.

(** * Client and server together *)

(** X11.  A name the client's validator accepts is never answered 400 by
    the server, whatever the storage service does; in a configured process
    the create call for it is sent. *)
Theorem client_accepted_name_passes_guard {S : Type} `{svc : BlobService S}
    (n : string) (w : World S) :
  validateContainerName n = "" ->
  (forall r w', post_containers (Some n) w = (Ok r, w') -> status r <> 400%N) /\
  (configured w ->
   sent w (snd (post_containers (Some n) w)) [CallCreate n "blob"]).
Proof.
  intros Hok. apply validate_accepts_only in Hok.
  pose proof (well_formed_no_violation n NameRules.Required Hok) as Hne.
  pose proof (well_formed_no_violation n NameRules.Charset Hok) as Hcs.
  cbn in Hne, Hcs.
  assert (JsString.falsy n || negb (re_name_test n) = false) as Hguard.
  { apply not_true_iff_false. rewrite guard_test. tauto. }
  split.
  - intros r w'. rewrite (post_containers_run n w Hguard).
    destruct (getBlobServiceClient w) as [[[]|e] w0].
    + destruct (create n "blob" (service w)) as [[[]|e] s1].
      * intros [= <- _]. discriminate.
      * destruct (decide _); intros [= <- _]; discriminate.
    + destruct (decide _); intros [= <- _]; discriminate.
  - intros Hcfg. unfold sent.
    rewrite (post_containers_run n w Hguard),
      (getBlobServiceClient_configured w Hcfg).
    destruct (create n "blob" (service w)) as [[[]|e] s1]; reflexivity.
Qed.

Lemma client_accepted_name_passes_guard_witness :
  sent (Mem.world docs_service)
       (snd (post_containers (Some "my-container") (Mem.world docs_service)))
       [CallCreate "my-container" "blob"].
Proof.
  apply (proj2 (client_accepted_name_passes_guard "my-container"
                  (Mem.world docs_service) eq_refl)).
  apply world_configured.
Defined.

Section CreateFacts.

Import Mem.

(** The naming rules of the in-memory service are those of the client. *)
Lemma valid_name_validate n :
  valid_name n = true <-> validateContainerName n = "".
Proof.
  unfold valid_name, validateContainerName, re_name_test.
  destruct n as [|a n]; [split; discriminate|].
  cbn [JsString.falsy negb andb].
  rewrite !N.leb_antisym.
  destruct (JsString.length (String a n) <? 3)%N; [split; discriminate|].
  destruct (63 <? JsString.length (String a n))%N; [split; discriminate|].
  cbn [negb andb orb].
  destruct (JsString.all name_char (String a n)); [|split; discriminate].
  cbn [negb andb].
  destruct (JsString.startsWith (String a n) "-"); [split; discriminate|].
  destruct (JsString.endsWith (String a n) "-"); [split; discriminate|].
  cbn [negb andb orb].
  destruct (JsString.includes (String a n) "--"); split;
    (discriminate || reflexivity).
Qed.

End CreateFacts.

(** X12.  Create, then create again.  Against a reachable in-memory
    service, in a configured process, creating a container under a name the
    client's validator accepts and the service does not hold is answered 200;
    the service then holds that container, empty and with blob access, and
    every other container as before.  The same request sent again is
    answered 409 and changes nothing. *)
Theorem create_then_create_again (w : World Mem.State) (n : string) :
  validateContainerName n = "" ->
  Mem.online (service w) = true ->
  configured w ->
  Mem.containers (service w) !! n = None ->
  exists w1 w2,
    post_containers (Some n) w
    = (Ok (res_json (JObj [("message", JStr "Container created successfully");
                           ("name", JStr n)])), w1) /\
    Mem.containers (service w1) !! n
    = Some (Mem.mkContainer "blob" (Mem.today (service w)) ∅) /\
    others_same n (service w) (service w1) /\
    post_containers (Some n) w1
    = (Ok (res_status_json 409 (error_body "Container already exists")), w2) /\
    service w2 = service w1.
Proof.
  intros Hok Honline Hcfg Hfresh.
  pose proof (proj2 (valid_name_validate n) Hok) as Hvalid.
  pose proof (valid_name_guard n Hvalid) as Hguard.
  set (s1 := Mem.with_containers (service w)
               (<[n := Mem.mkContainer "blob" (Mem.today (service w)) ∅]>
                  (Mem.containers (service w)))).
  exists (answered w (CallCreate n "blob") s1).
  exists (answered (answered w (CallCreate n "blob") s1)
            (CallCreate n "blob") s1).
  assert (Mem.containers s1 !! n
          = Some (Mem.mkContainer "blob" (Mem.today (service w)) ∅)) as Hmade
    by apply lookup_insert_eq.
  split; [|split; [exact Hmade | split; [apply others_same_insert | split]]].
  - rewrite (post_containers_run n w Hguard),
      (getBlobServiceClient_configured w Hcfg).
    cbn [create Mem.MemService]. unfold Mem.mem_create.
    rewrite Honline, Hvalid, Hfresh. reflexivity.
  - apply (post_containers_conflict n (answered w (CallCreate n "blob") s1)
             "ContainerAlreadyExists" s1 Hguard Hcfg).
    cbn [create Mem.MemService service answered]. unfold Mem.mem_create.
    replace (Mem.online s1) with true by (symmetry; exact Honline).
    rewrite Hvalid, Hmade. reflexivity.
  - reflexivity.
Qed.

Lemma create_then_create_again_witness :
  exists w1 w2,
    post_containers (Some "new-docs") (Mem.world docs_service)
    = (Ok (res_json (JObj [("message", JStr "Container created successfully");
                           ("name", JStr "new-docs")])), w1) /\
    post_containers (Some "new-docs") w1
    = (Ok (res_status_json 409 (error_body "Container already exists")), w2).
Proof.
  destruct (create_then_create_again (Mem.world docs_service) "new-docs")
    as (w1 & w2 & Hfirst & _ & _ & Hsecond & _).
  - reflexivity.
  - reflexivity.
  - apply world_configured.
  - reflexivity.
  - exists w1, w2. split; assumption.
Defined.


(** * The size tag *)

Section ToStringFacts.

Import JsString.

Lemma app_cons c (s1 s2 : string) : String c s1 +:+ s2 = String c (s1 +:+ s2).
Proof. reflexivity. Qed.

Lemma app_nil_r_string (s : string) : s +:+ "" = s.
Proof.
  induction s as [|c s IH]; [reflexivity|]. rewrite app_cons, IH. reflexivity.
Qed.

Lemma length_snoc (s : string) c :
  String.length (s +:+ String c "") = S (String.length s).
Proof.
  induction s as [|a s IH]; [reflexivity|].
  rewrite app_cons. cbn [String.length]. rewrite IH. reflexivity.
Qed.

Lemma decimal_from_app v s1 s2 :
  decimal_from v (s1 +:+ s2) = decimal_from (decimal_from v s1) s2.
Proof.
  revert v. induction s1 as [|c s1 IH]; intros v; [reflexivity|].
  rewrite app_cons. cbn [decimal_from]. apply IH.
Qed.

Lemma all_app f s1 s2 : all f (s1 +:+ s2) = all f s1 && all f s2.
Proof.
  induction s1 as [|c s1 IH]; [reflexivity|].
  rewrite app_cons. cbn [all]. rewrite IH. apply andb_assoc.
Qed.

Lemma app_assoc_string (s1 s2 s3 : string) :
  (s1 +:+ s2) +:+ s3 = s1 +:+ (s2 +:+ s3).
Proof.
  induction s1 as [|c s1 IH]; [reflexivity|].
  rewrite !app_cons, IH. reflexivity.
Qed.

Lemma digit_code d : (d < 10)%N -> N_of_ascii (digit d) = (48 + d)%N.
Proof.
  intros Hd. unfold digit. apply N_ascii_embedding. lia.
Qed.

Lemma is_digit_digit d : (d < 10)%N -> is_digit (digit d) = true.
Proof.
  intros Hd. unfold is_digit. rewrite (digit_code d Hd).
  apply andb_true_iff. split; apply N.leb_le; lia.
Qed.

Lemma toString_fuel_S fuel n acc :
  toString_fuel (S fuel) n acc
  = if (n / 10 =? 0)%N then String (digit (n mod 10)) acc
    else toString_fuel fuel (n / 10)%N (String (digit (n mod 10)) acc).
Proof. reflexivity. Qed.

(** With enough fuel, the digits of [n] are put in front of [acc]. *)
Lemma toString_fuel_digits fuel n acc :
  (n < 2 ^ N.of_nat (S fuel))%N ->
  exists ds,
    toString_fuel (S fuel) n acc = ds +:+ acc /\
    ds <> "" /\
    all is_digit ds = true /\
    forall v, decimal_from v ds = (v * 10 ^ N.of_nat (String.length ds) + n)%N
              /\ (n < 10 ^ N.of_nat (String.length ds))%N.
Proof.
  revert n acc. induction fuel as [|fuel IH]; intros n acc Hn.
  - assert (n / 10 = 0)%N as Hq by (apply N.div_small; cbn in Hn; lia).
    assert (n mod 10 = n)%N as Hr by (apply N.mod_small; cbn in Hn; lia).
    rewrite toString_fuel_S, Hq, Hr. cbn [N.eqb].
    exists (String (digit n) ""). split; [reflexivity|].
    split; [discriminate|].
    assert (n < 10)%N as Hlt by (cbn in Hn; lia).
    split.
    + cbn [all]. rewrite (is_digit_digit n Hlt). reflexivity.
    + intros v. cbn [decimal_from String.length]. rewrite (digit_code n Hlt).
      change (10 ^ N.of_nat 1)%N with 10%N. lia.
  - rewrite toString_fuel_S.
    assert (n mod 10 < 10)%N as Hr by (apply N.mod_lt; lia).
    pose proof (N.div_mod' n 10) as Hdm.
    destruct (n / 10 =? 0)%N eqn:Hq.
    + apply N.eqb_eq in Hq.
      exists (String (digit (n mod 10)) ""). split; [reflexivity|].
      split; [discriminate|]. split.
      * cbn [all]. rewrite (is_digit_digit _ Hr). reflexivity.
      * intros v. cbn [decimal_from String.length].
        rewrite (digit_code _ Hr). change (10 ^ N.of_nat 1)%N with 10%N. lia.
    + assert (n / 10 < 2 ^ N.of_nat (S fuel))%N as Hsmaller.
      { apply N.Div0.div_lt_upper_bound.
        rewrite (Nat2N.inj_succ (S fuel)), N.pow_succ_r' in Hn. lia. }
      destruct (IH (n / 10)%N (String (digit (n mod 10)) acc) Hsmaller)
        as (ds & Hrun & Hne & Hdigits & Hval).
      exists (ds +:+ String (digit (n mod 10)) ""). split.
      { rewrite Hrun, app_assoc_string. reflexivity. }
      split.
      { destruct ds; [contradiction | discriminate]. }
      split.
      { rewrite all_app, Hdigits. cbn [all].
        rewrite (is_digit_digit _ Hr). reflexivity. }
      intros v. rewrite decimal_from_app.
      destruct (Hval v) as [-> Hbound].
      cbn [decimal_from]. rewrite (digit_code _ Hr).
      rewrite length_snoc, Nat2N.inj_succ, N.pow_succ_r'.
      clear Hq Hsmaller Hrun Hval IH Hn.
      generalize dependent (10 ^ N.of_nat (String.length ds))%N.
      generalize dependent (n / 10)%N. generalize dependent (n mod 10)%N.
      intros r Hr q Hdm P Hbound. subst n. split; [ring_simplify; lia | lia].
Qed.

Lemma toString_digits n :
  toString n <> "" /\
  all is_digit (toString n) = true /\
  decimal_value (toString n) = n.
Proof.
  unfold toString.
  destruct (toString_fuel_digits (N.to_nat (N.log2 n)) n "") as
    (ds & Hrun & Hne & Hdigits & Hval).
  { rewrite Nat2N.inj_succ, N2Nat.id.
    destruct n as [|q]; [reflexivity|].
    apply N.log2_spec. reflexivity. }
  assert (toString_fuel (S (N.to_nat (N.log2 n))) n "" = ds) as ->
    by (rewrite Hrun; apply app_nil_r_string).
  split; [exact Hne|]. split; [exact Hdigits|].
  unfold decimal_value. destruct (Hval 0%N) as [-> _]. lia.
Qed.

End ToStringFacts.

(** X13.  The [fileSize] tag.  For every file multer lets through, the tag
    the upload writes for its size, [size.toString()], is a non-empty string
    of decimal digits that reads back as the byte length of the file, and
    that length is at most 100 MiB. *)
Theorem fileSize_tag_reads_back (p : FilePart) (f : MulterFile) :
  multer_single upload (Some p) = NextHandler (Some f) ->
  JsString.toString (size f) <> "" /\
  JsString.all is_digit (JsString.toString (size f)) = true /\
  decimal_value (JsString.toString (size f)) = byteLength (part_data p) /\
  (size f <= 100 * 1024 * 1024)%N.
Proof.
  intros Hmulter.
  assert (size f = byteLength (part_data p) /\
          (byteLength (part_data p) <= 100 * 1024 * 1024)%N) as [Hsize Hle].
  { revert Hmulter. unfold multer_single.
    destruct (fileFilter upload p) as [[e|] []]; try discriminate.
    destruct (N.ltb_spec (limits_fileSize upload) (byteLength (part_data p)));
      [discriminate|].
    intros [= <-]. split; [reflexivity | assumption]. }
  destruct (toString_digits (size f)) as (Hne & Hdigits & Hval).
  split; [exact Hne|]. split; [exact Hdigits|].
  split; [rewrite Hval; exact Hsize | rewrite Hsize; exact Hle].
Qed.

Lemma fileSize_tag_reads_back_witness :
  decimal_value (JsString.toString 600) = 600%N.
Proof.
  apply (fileSize_tag_reads_back report_pdf
           (mkMulterFile "report.pdf" (part_data report_pdf)
              "application/pdf" 600) eq_refl).
Defined.

(** * Generated names *)

Section UniqueNames.



End UniqueNames.



(** * Further properties of the client *)

(** X15.  The validator accepts exactly the well-formed names, and a reason
    it returns is always that of a rule the name does violate. *)
Theorem validateContainerName_sound (s : string) :
  (validateContainerName s = "" <-> NameRules.well_formed s) /\
  (validateContainerName s <> "" ->
   exists r, NameRules.violates r s /\
             validateContainerName s = NameRules.reason r).
Proof.
  split; [split; [apply validate_accepts_only | apply validate_accepts]|].
  unfold validateContainerName.
  destruct (JsString.falsy s) eqn:E1.
  { intros _. exists NameRules.Required. split; [|reflexivity].
    apply required_test, E1. }
  assert (s <> "") as Hne
    by (intros H; apply required_test in H; congruence).
  destruct (_ || _)%N eqn:E2.
  { intros _. exists NameRules.Length. split; [|reflexivity].
    apply length_test, E2. }
  destruct (negb (re_name_test s)) eqn:E3.
  { intros _. exists NameRules.Charset. split; [|reflexivity].
    apply (charset_test s Hne), E3. }
  destruct (JsString.startsWith s "-" || JsString.endsWith s "-") eqn:E4.
  { intros _. exists NameRules.EdgeHyphen. split; [|reflexivity].
    apply edge_test, E4. }
  destruct (JsString.includes s "--") eqn:E5.
  { intros _. exists NameRules.DoubleHyphen. split; [|reflexivity].
    apply double_test, E5. }
  intros H. contradiction.
Qed.

Lemma validateContainerName_sound_witness :
  exists r, NameRules.violates r "my--docs" /\
            validateContainerName "my--docs" = NameRules.reason r.
Proof.
  apply (proj2 (validateContainerName_sound "my--docs")). discriminate.
Defined.

(** ** The create-container dialog *)

Section DialogFacts.

Lemma falsy_false_ne s : negb (JsString.falsy s) = true <-> s <> "".
Proof.
  rewrite negb_true_iff, <- not_true_iff_false, falsy_spec. reflexivity.
Qed.

Lemma dialog_step_mutated s e :
  Forall (fun n => validateContainerName n = "") (mutated s) ->
  Forall (fun n => validateContainerName n = "") (mutated (dialog_step s e)).
Proof.
  intros Hall. destruct e; cbn; try exact Hall.
  - unfold handleNameChange. destruct (negb _); exact Hall.
  - unfold handleCreateContainer.
    destruct (negb (JsString.falsy (validateContainerName (newContainerName s))))
      eqn:Herr; cbn; [exact Hall|].
    apply Forall_app. split; [exact Hall|]. constructor; [|constructor].
    apply negb_false_iff, falsy_spec in Herr. exact Herr.
Qed.

Lemma dialog_step_error s e :
  keeps_text e -> error_is_current s -> error_is_current (dialog_step s e).
Proof.
  unfold error_is_current. intros He Hs. destruct e; cbn; try exact Hs.
  - unfold handleNameChange.
    destruct (negb (JsString.falsy (nameError s))) eqn:Hshown; cbn.
    + right. reflexivity.
    + left. apply negb_false_iff, falsy_spec in Hshown. exact Hshown.
  - unfold handleCreateContainer.
    destruct (negb _); cbn; [right; reflexivity | exact Hs].
  - contradiction.
Qed.

End DialogFacts.

(** X16.  Whatever the user and the mutation do, in whatever order, every
    name the dialog hands to the create mutation has been accepted by the
    validator, so it is well formed. *)
Theorem dialog_submits_validated_names (events : list DialogEvent) :
  Forall (fun n => validateContainerName n = "" /\ NameRules.well_formed n)
         (mutated (dialog_run events initial_dialog)).
Proof.
  apply (Forall_impl (fun n => validateContainerName n = "")).
  2:{ intros n Hn. split; [exact Hn | apply validate_accepts_only, Hn]. }
  unfold dialog_run.
  assert (Forall (fun n => validateContainerName n = "")
                 (mutated initial_dialog)) as Hinit by constructor.
  revert Hinit. generalize initial_dialog.
  induction events as [|e events IH]; intros s Hs; [exact Hs|].
  cbn [fold_left]. apply IH, dialog_step_mutated, Hs.
Qed.

(** X17.  While the user opens and closes the dialog, types and clicks
    Create, and mutations fail, an error shown in the dialog is never stale:
    it is always the validator's verdict on the text now in the field.
    Typing alone never raises an error: with no error shown, a change of the
    text leaves none shown. *)
Theorem dialog_error_is_current (events : list DialogEvent) :
  Forall keeps_text events ->
  error_is_current (dialog_run events initial_dialog) /\
  (forall value,
      nameError (dialog_run events initial_dialog) = "" ->
      nameError (handleNameChange value (dialog_run events initial_dialog))
      = "").
Proof.
  intros Hlocal. split.
  - unfold dialog_run.
    assert (error_is_current initial_dialog) as Hinit by (left; reflexivity).
    revert Hinit. generalize initial_dialog.
    induction Hlocal as [|e events He _ IH]; intros s Hs; [exact Hs|].
    cbn [fold_left]. apply IH, dialog_step_error; assumption.
  - intros value Hnone. unfold handleNameChange. rewrite Hnone. reflexivity.
Qed.

Lemma dialog_error_is_current_witness :
  error_is_current
    (dialog_run [OpenDialog; NameChange "AB"; ClickCreate; NameChange "abc-"]
                initial_dialog).
Proof.
  apply (proj1 (dialog_error_is_current
                  [OpenDialog; NameChange "AB"; ClickCreate; NameChange "abc-"]
                  ltac:(repeat constructor))).
Defined.

Example dialog_typing_then_create :
  let s := dialog_run [OpenDialog; NameChange "AB"; ClickCreate;
                       NameChange "abc-"; NameChange "abc"; ClickCreate]
                      initial_dialog in
  nameError s = "" /\ mutated s = ["abc"].
Proof. split; reflexivity. Qed.

(** ** The upload queue *)

Section QueueFacts.

Lemma same_file_refl f : same_file f f = true.
Proof. apply N.eqb_refl. Qed.

Lemma apply_update_fmap f u prev :
  exists g,
    apply_update f u prev = g <$> prev /\
    (forall item, file (g item) = file item) /\
    (forall item, same_file (file item) f = false -> g item = item).
Proof.
  destruct u as [|p| |msg]; eexists; (split; [reflexivity|]); split;
    intros item; cbn; destruct (same_file (file item) f);
    (reflexivity || discriminate || auto).
Qed.

End QueueFacts.

(** X18.  An update of the upload queue for one file (uploading, progress,
    success, failure) keeps the queue's length and the file of every entry,
    leaves the entries of every other file as they are, and sets the status
    (or the progress) of each entry of that file: failure also records the
    message. *)
Theorem queue_update_touches_one_file (f : File) (u : QueueUpdate)
    (prev : list FileUploadState) :
  length (apply_update f u prev) = length prev /\
  file <$> apply_update f u prev = file <$> prev /\
  (forall i item,
      prev !! i = Some item -> same_file (file item) f = false ->
      apply_update f u prev !! i = Some item) /\
  (forall i item,
      prev !! i = Some item -> same_file (file item) f = true ->
      exists item',
        apply_update f u prev !! i = Some item' /\
        match u with
        | Uploading =>
            upload_status item' = uploading /\ progress item' = progress item
        | Progress p =>
            progress item' = p /\ upload_status item' = upload_status item
        | Succeeded =>
            upload_status item' = success /\ progress item' = progress item
        | Failed errorMessage =>
            upload_status item' = error /\
            upload_error item' = Some errorMessage
        end).
Proof.
  assert (forall i item,
             prev !! i = Some item -> same_file (file item) f = true ->
             exists item',
               apply_update f u prev !! i = Some item' /\
               match u with
               | Uploading =>
                   upload_status item' = uploading /\
                   progress item' = progress item
               | Progress p =>
                   progress item' = p /\
                   upload_status item' = upload_status item
               | Succeeded =>
                   upload_status item' = success /\
                   progress item' = progress item
               | Failed errorMessage =>
                   upload_status item' = error /\
                   upload_error item' = Some errorMessage
               end) as Hsame.
  { intros i item Hi Hsame.
    destruct u as [|p| |msg]; cbn [apply_update];
      unfold set_uploading, set_progress, set_success, set_error;
      rewrite list_lookup_fmap, Hi; cbn [fmap option_fmap option_map];
      rewrite Hsame; eexists; (split; [reflexivity | split; reflexivity]). }
  destruct (apply_update_fmap f u prev) as (g & Hg & Hfile & Hother).
  split; [rewrite Hg; apply length_fmap|]. split.
  { rewrite Hg, <- list_fmap_compose. apply list_fmap_ext. intros i x _.
    apply Hfile. }
  split; [|exact Hsame].
  intros i item Hi Hne. rewrite Hg, list_lookup_fmap, Hi. cbn.
  rewrite (Hother item Hne). reflexivity.
Qed.

Lemma queue_update_touches_one_file_witness :
  set_success (mkFile 1 "a.pdf" 10)
    [mkFileUploadState (mkFile 1 "a.pdf" 10) (mkUploadProgress 0 10 0)
       uploading None;
     mkFileUploadState (mkFile 2 "b.pdf" 20) (mkUploadProgress 0 20 0)
       pending None] !! 1
  = Some (mkFileUploadState (mkFile 2 "b.pdf" 20) (mkUploadProgress 0 20 0)
            pending None).
Proof.
  apply (proj1 (proj2 (proj2 (queue_update_touches_one_file
                                (mkFile 1 "a.pdf" 10) Succeeded _)))).
  - reflexivity.
  - reflexivity.
Defined.

(** X19.  After a file is removed from the queue, no entry of it is left,
    the entries of the other files are all still there in their order, and a
    late update for the removed file (a progress callback, the end of its
    upload) changes nothing: it cannot bring the entry back. *)
Theorem removed_file_stays_removed (f : File) (u : QueueUpdate)
    (prev : list FileUploadState) :
  Forall (fun item => same_file (file item) f = false)
         (removeFromQueue f prev) /\
  removeFromQueue f prev `sublist_of` prev /\
  (forall item, item ∈ prev -> same_file (file item) f = false ->
                item ∈ removeFromQueue f prev) /\
  apply_update f u (removeFromQueue f prev) = removeFromQueue f prev.
Proof.
  assert (Forall (fun item => same_file (file item) f = false)
                 (removeFromQueue f prev)) as Hgone.
  { apply Forall_forall. intros item Hin.
    apply list_elem_of_In, filter_In in Hin as [_ Hin].
    apply negb_true_iff in Hin. exact Hin. }
  split; [exact Hgone|]. split.
  { unfold removeFromQueue. clear Hgone.
    induction prev as [|item prev IH]; cbn; [constructor|].
    destruct (negb _); [apply sublist_skip | apply sublist_cons]; exact IH. }
  split.
  - intros item Hin Hne. apply list_elem_of_In, filter_In.
    split; [apply list_elem_of_In, Hin | rewrite Hne; reflexivity].
  - destruct (apply_update_fmap f u (removeFromQueue f prev))
      as (g & -> & _ & Hother).
    rewrite <- (list_fmap_id (removeFromQueue f prev)) at 2.
    apply Forall_fmap_ext, (Forall_impl _ _ _ Hgone).
    intros item Hne. apply Hother, Hne.
Qed.

Lemma removed_file_stays_removed_witness :
  mkFileUploadState (mkFile 2 "b.pdf" 20) (mkUploadProgress 0 20 0)
    pending None
  ∈ removeFromQueue (mkFile 1 "a.pdf" 10)
      [mkFileUploadState (mkFile 1 "a.pdf" 10) (mkUploadProgress 0 10 0)
         error (Some "Upload failed");
       mkFileUploadState (mkFile 2 "b.pdf" 20) (mkUploadProgress 0 20 0)
         pending None].
Proof.
  apply (proj1 (proj2 (proj2 (removed_file_stays_removed
                                (mkFile 1 "a.pdf" 10) Succeeded _)))).
  - apply list_elem_of_In. right. left. reflexivity.
  - reflexivity.
Defined.

(** ** The file list *)

(** Every content type is shown like one of six. *)
Lemma category_cases contentType :
  exists rep,
    rep ∈ ["image/"; "pdf"; "word"; "excel"; "powerpoint"; ""] /\
    getFileTypeChip contentType = getFileTypeChip rep /\
    getFileIcon contentType = getFileIcon rep.
Proof.
  unfold getFileTypeChip, getFileIcon.
  destruct (JsString.startsWith contentType "image/").
  { exists "image/". split; [set_solver | split; reflexivity]. }
  destruct (JsString.includes contentType "pdf").
  { exists "pdf". split; [set_solver | split; reflexivity]. }
  destruct (JsString.includes contentType "word"
            || JsString.includes contentType "document").
  { exists "word". split; [set_solver | split; reflexivity]. }
  destruct (JsString.includes contentType "excel"
            || JsString.includes contentType "spreadsheet").
  { exists "excel". split; [set_solver | split; reflexivity]. }
  destruct (JsString.includes contentType "powerpoint"
            || JsString.includes contentType "presentation").
  { exists "powerpoint". split; [set_solver | split; reflexivity]. }
  exists "". split; [set_solver | split; reflexivity].
Qed.

(** X20.  The icon and the chip of a listed file always fall in the same
    category: two content types get the same chip label exactly when they
    get the same icon.  A content type containing [document], not starting
    with [image/] and not containing [pdf], is labelled Word; so of the types
    the server accepts, the Excel and PowerPoint formats of Office Open XML
    ([...officedocument.spreadsheetml.sheet],
    [...officedocument.presentationml.presentation]) are shown as Word. *)
Theorem file_category (contentType other : string) :
  (chip_label (getFileTypeChip contentType)
   = chip_label (getFileTypeChip other)
   <-> getFileIcon contentType = getFileIcon other) /\
  (JsString.includes contentType "document" = true ->
   JsString.startsWith contentType "image/" = false ->
   JsString.includes contentType "pdf" = false ->
   chip_label (getFileTypeChip contentType) = "Word") /\
  (chip_label ∘ getFileTypeChip) <$> allowedTypes
  = ["PDF"; "Word"; "Word"; "Excel"; "Word"; "PowerPoint"; "Word"; "File";
     "Image"; "Image"; "Image"].
Proof.
  split; [|split; [|reflexivity]].
  - destruct (category_cases contentType) as (rep1 & Hin1 & -> & ->).
    destruct (category_cases other) as (rep2 & Hin2 & -> & ->).
    repeat (apply elem_of_cons in Hin1 as [-> | Hin1]);
      [..|apply elem_of_nil in Hin1; contradiction];
      repeat (apply elem_of_cons in Hin2 as [-> | Hin2]);
      try (apply elem_of_nil in Hin2; contradiction);
      (split; intros H; (reflexivity || discriminate H)).
  - intros Hdoc Himg Hpdf. unfold getFileTypeChip.
    rewrite Himg, Hpdf, Hdoc, orb_true_r. reflexivity.
Qed.

Lemma file_category_witness :
  chip_label
    (getFileTypeChip
       "application/vnd.openxmlformats-officedocument.spreadsheetml.sheet")
  = "Word".
Proof.
  apply (proj1 (proj2 (file_category
    "application/vnd.openxmlformats-officedocument.spreadsheetml.sheet" "")));
    reflexivity.
Defined.

(** ** Dropzone and multer *)

(** X21.  Dropzone and multer, for the type multer reports and sizes other
    than exactly 100 MiB.  A file whose type is one of the keys of the
    dropzone's [accept] and whose size is below the dropzone's [maxSize] is
    let through by the server's multer.  A file multer lets through has a
    type among those keys and a size of at most [maxSize].  Every file part
    is either let through or ends in an error. *)
Theorem dropzone_and_multer_agree (p : FilePart) :
  (array_includes (fst <$> accept) (part_mimetype p) = true ->
   (byteLength (part_data p) < maxSize)%N ->
   exists f, multer_single upload (Some p) = NextHandler (Some f)) /\
  (forall f,
      multer_single upload (Some p) = NextHandler (Some f) ->
      array_includes (fst <$> accept) (part_mimetype p) = true /\
      (byteLength (part_data p) <= maxSize)%N) /\
  ((exists f, multer_single upload (Some p) = NextHandler (Some f)) \/
   (exists e, multer_single upload (Some p) = NextError e)).
Proof.
  change (fst <$> accept) with allowedTypes.
  change maxSize with (100 * 1024 * 1024)%N.
  destruct (array_includes allowedTypes (part_mimetype p)) eqn:Htype.
  - destruct (N.ltb_spec (100 * 1024 * 1024) (byteLength (part_data p)))
      as [Hbig | Hsmall].
    + rewrite (multer_rejects_size p Htype Hbig).
      split; [intros _ H; lia|].
      split; [intros f H; discriminate | right; eexists; reflexivity].
    + rewrite (multer_accepts p Htype Hsmall).
      split; [intros _ _; eexists; reflexivity|].
      split; [intros f _; split; auto | left; eexists; reflexivity].
  - rewrite (multer_rejects_type p Htype).
    split; [intros H; discriminate|].
    split; [intros f H; discriminate | right; eexists; reflexivity].
Qed.

Lemma dropzone_and_multer_agree_witness :
  exists f, multer_single upload (Some report_pdf) = NextHandler (Some f).
Proof.
  apply (proj1 (dropzone_and_multer_agree report_pdf)); reflexivity.
Defined.
